(** * Sports Analytics SaaS API

    A shallow embedding of the request router ([main.py]) and of the
    document schemas ([schemas.py]): the filter dictionary that
    [list_predictions] builds, the availability checks and static
    fallbacks of the read endpoints, the rewriting of [_id], and the
    numeric bounds of the [Prediction] schema.

    Python values are modelled as follows: [str] as [string], [int] as
    [Z], [float] as an IEEE-754 binary64 value ([spec_float]), a [dict]
    as a [gmap] with string keys, a [list] as a [list], [Optional[T]] as
    [option T], and a raised exception as the [Raise] outcome of a small
    error monad. *)

From Stdlib Require Import ZArith String Ascii List.
From Stdlib Require Import Floats.SpecFloat.
From stdpp Require Import gmap strings list fin_maps pretty.

Open Scope string_scope.
Open Scope Z_scope.

Set Warnings "-register-all".

(** ** Python floats *)

Module Float64.

(** Precision and exponent range of binary64. *)
Definition prec : Z := 53.
Definition emax : Z := 1024.

(** The double that an integer literal denotes. *)
Definition of_Z (z : Z) : spec_float := binary_normalize prec emax z 0 false.

(** The double that the decimal literal [n/d] denotes (correctly
    rounded quotient of two exactly representable integers). *)
Definition of_ratio (n d : Z) : spec_float := SFdiv prec emax (of_Z n) (of_Z d).

Definition zero : spec_float := S754_zero false.
Definition one : spec_float := S754_finite false 4503599627370496 (-52).

(** The literal [1.0001]. *)
Definition one_and_a_ten_thousandth : spec_float :=
  S754_finite false 4504049987333233 (-52).

Definition is_double (f : spec_float) : bool := valid_binary prec emax f.

(** [bool(f)]: a float is falsy exactly when it is a zero. *)
Definition truthy (f : spec_float) : bool :=
  match f with
  | S754_zero _ => false
  | _ => true
  end.

(** [a > b], [a >= b], [a <= b] on floats; every comparison with a NaN
    is false. *)
Definition gt (a b : spec_float) : bool := SFltb b a.
Definition ge (a b : spec_float) : bool := SFleb b a.
Definition le (a b : spec_float) : bool := SFleb a b.

(** Exact comparison of an integer with a float ([None] on NaN). *)
Definition compare_Z (z : Z) (f : spec_float) : option comparison :=
  match f with
  | S754_nan => None
  | S754_zero _ => Some (z ?= 0)
  | S754_infinity s => Some (if s then Gt else Lt)
  | S754_finite s m e =>
      let v := if s then Z.neg m else Z.pos m in
      Some (if 0 <=? e then z ?= v * 2 ^ e else z * 2 ^ (- e) ?= v)
  end.

End Float64.

(** ** schemas.py: the [Prediction] model *)

Module Schemas.

(** A submitted prediction whose fields already have the declared
    Python types; [Literal] fields arrive as strings and are checked
    against their closed sets. *)
Record Prediction := {
  league : string;
  country : option string;
  match_id : string;
  home_team : string;
  away_team : string;
  kickoff_iso : string;
  pick : string;
  odds : spec_float;
  confidence : Z;
  risk : string;
  xg_home : option spec_float;
  xg_away : option spec_float;
  injuries : option string;
  weather : option string;
  head_to_head : option string;
  recent_form : option string;
  analysis : option string;
  tags : option (list string);
  status : string
}.

Definition pick_literals : list string :=
  ["home_win"; "away_win"; "draw"; "over_2_5"; "under_2_5";
   "both_teams_score"; "home_asian"; "away_asian"].
Definition risk_literals : list string := ["low"; "medium"; "high"].
Definition status_literals : list string := ["pending"; "won"; "lost"; "void"].

Definition literal_ok (allowed : list string) (s : string) : bool :=
  existsb (String.eqb s) allowed.

(** [Field(..., gt=1.0)] *)
Definition odds_ok (o : spec_float) : bool := Float64.gt o Float64.one.

(** [Field(..., ge=1, le=100)] *)
Definition confidence_ok (c : Z) : bool := (1 <=? c) && (c <=? 100).

(** [Field(None, ge=0)] on an optional float. *)
Definition xg_ok (x : option spec_float) : bool :=
  match x with
  | None => true
  | Some f => Float64.ge f Float64.zero
  end.

(** One entry per field constraint, in declaration order. *)
Definition field_checks (p : Prediction) : list (string * bool) :=
  [("pick", literal_ok pick_literals (pick p));
   ("odds", odds_ok (odds p));
   ("confidence", confidence_ok (confidence p));
   ("risk", literal_ok risk_literals (risk p));
   ("xg_home", xg_ok (xg_home p));
   ("xg_away", xg_ok (xg_away p));
   ("status", literal_ok status_literals (status p))].

(** The fields reported by the validation error; the model is
    accepted exactly when none is reported. *)
Definition validation_errors (p : Prediction) : list string :=
  fst <$> filter (λ fc, negb (snd fc)) (field_checks p).

Definition validate (p : Prediction) : option Prediction :=
  match validation_errors p with
  | [] => Some p
  | _ => None
  end.

(** A prediction of the demo seed ([i = 0]), used as a concrete input. *)
Definition sample (o : spec_float) (c : Z) : Prediction := {|
  league := "Premier League";
  country := Some "International";
  match_id := "M001";
  home_team := "Barcelona";
  away_team := "Real Madrid";
  kickoff_iso := "2024-03-05T18:00:00Z";
  pick := "home_win";
  odds := o;
  confidence := c;
  risk := "low";
  xg_home := Some (Float64.of_ratio 12 10);
  xg_away := Some (Float64.of_ratio 9 10);
  injuries := None;
  weather := None;
  head_to_head := None;
  recent_form := Some "W-D-W-L-W";
  analysis := Some "Model favors home due to xG and recent form.";
  tags := Some ["demo"; "major-league"];
  status := "pending"
|}.

(** The other models the router constructs. Fields that several
    classes share carry the class name as a prefix. *)
Record Plan := {
  plan_code : string;
  plan_name : string;
  monthly_price : spec_float;
  yearly_price : spec_float;
  plan_currency : string;
  features : list string
}.

Record Blog := {
  blog_slug : string;
  blog_title : string;
  excerpt : option string;
  blog_content : string;
  cover_image : option string;
  author : option string;
  published_at : option string;
  language : option string;
  blog_tags : option (list string)
}.

Record Testimonial := {
  testimonial_name : string;
  location : option string;
  message : string;
  slip_image : option string;
  verified : bool
}.

Record Legal := {
  legal_slug : string;
  legal_title : string;
  legal_content : string;
  updated_at : option string
}.

Definition plan_code_literals : list string := ["free"; "starter"; "pro"].
Definition legal_slug_literals : list string := ["terms"; "privacy"; "responsible-betting"].

(** [Plan(...)] and [Legal(...)]: the one constraint of each class is
    its [Literal] field. *)
Definition validate_plan (p : Plan) : option Plan :=
  if literal_ok plan_code_literals (plan_code p) then Some p else None.

Definition validate_legal (l : Legal) : option Legal :=
  if literal_ok legal_slug_literals (legal_slug l) then Some l else None.

(** The floats that pass [ge=0]: the zeros, the positive numbers and
    the positive infinity. *)
Definition non_negative (f : spec_float) : Prop :=
  match f with
  | S754_zero _ => True
  | S754_infinity s => s = false
  | S754_nan => False
  | S754_finite s _ _ => s = false
  end.

End Schemas.

(** ** Outcomes of a call *)

Inductive error :=
| HTTPException (status_code : Z) (detail : string)
| StoreUnavailable.

Inductive result (A : Type) :=
| Ok (a : A)
| Raise (e : error).
Arguments Ok {A} a.
Arguments Raise {A} e.

Definition bind {A B : Type} (r : result A) (k : A → result B) : result B :=
  match r with
  | Ok a => k a
  | Raise e => Raise e
  end.

Notation "x ←! r ; k" := (bind r (λ x, k))
  (at level 20, r at level 100, k at level 200, only parsing, right associativity).

(** ** The regular expressions of the store's [$regex] operator

    The fragment of the store's Perl-compatible syntax that is modelled:
    a leading [^] anchors the match at the start of the subject, [.]
    matches any character but a newline, a backslash before a
    non-alphanumeric character makes it literal, and a character that
    is not a metacharacter matches itself. A pattern that uses anything
    else is outside the fragment: [compile] yields [None] and the match
    is left to the store's own engine. *)

Module Regex.

Inductive atom :=
| Lit (c : ascii)
| Dot.

Record pattern := { anchored : bool; atoms : list atom }.

Definition metachars : list ascii := list_ascii_of_string "\^$.[|()?*+{".

Definition is_meta (c : ascii) : bool := existsb (Ascii.eqb c) metachars.

Definition is_alnum (c : ascii) : bool :=
  let n := Z.of_nat (nat_of_ascii c) in
  ((48 <=? n) && (n <=? 57)) || ((65 <=? n) && (n <=? 90))
  || ((97 <=? n) && (n <=? 122)).

(** No character of [s] is a metacharacter. *)
Definition plain (s : string) : bool :=
  forallb (λ c, negb (is_meta c)) (list_ascii_of_string s).

Fixpoint parse_atoms (s : string) : option (list atom) :=
  match s with
  | EmptyString => Some []
  | String c rest =>
      if Ascii.eqb c "\" then
        match rest with
        | EmptyString => None
        | String c' rest' =>
            if is_alnum c' then None else cons (Lit c') <$> parse_atoms rest'
        end
      else if Ascii.eqb c "." then cons Dot <$> parse_atoms rest
      else if is_meta c then None
      else cons (Lit c) <$> parse_atoms rest
  end.

Definition compile (p : string) : option pattern :=
  match p with
  | String c rest =>
      if Ascii.eqb c "^" then Build_pattern true <$> parse_atoms rest
      else Build_pattern false <$> parse_atoms p
  | EmptyString => Some (Build_pattern false [])
  end.

Definition newline : ascii := ascii_of_nat 10.

Definition atom_matches (a : atom) (c : ascii) : bool :=
  match a with
  | Lit x => Ascii.eqb x c
  | Dot => negb (Ascii.eqb c newline)
  end.

Fixpoint matches_here (l : list atom) (s : string) : bool :=
  match l, s with
  | [], _ => true
  | a :: l', String c s' => atom_matches a c && matches_here l' s'
  | _ :: _, EmptyString => false
  end.

Fixpoint matches_somewhere (l : list atom) (s : string) : bool :=
  matches_here l s ||
  match s with
  | EmptyString => false
  | String _ s' => matches_somewhere l s'
  end.

Definition run (r : pattern) (s : string) : bool :=
  if anchored r then matches_here (atoms r) s else matches_somewhere (atoms r) s.

End Regex.

(** ** Documents, filters and the document store gateway *)

Module Database.

(** The values a stored document holds. [VObjectId] carries the
    identifier's 24-digit hexadecimal rendering. *)
Inductive value :=
| VNone
| VBool (b : bool)
| VInt (z : Z)
| VFloat (f : spec_float)
| VStr (s : string)
| VObjectId (hex : string)
| VList (vs : list value).

(** A document is a [dict] from field names to values. *)
Abbreviation document := (gmap string value) (only parsing).

(** The value under a key of a filter dictionary: a string to be
    equalled, or a dictionary of operators. *)
Inductive cond :=
| CEq (s : string)
| COps (ops : gmap string value).

Abbreviation filter_dict := (gmap string cond) (only parsing).

(** Numeric order between stored numbers, across [int] and [float]. *)
Definition compare_num (a b : value) : option comparison :=
  match a, b with
  | VInt x, VInt y => Some (x ?= y)
  | VFloat x, VFloat y => SFcompare x y
  | VInt x, VFloat y => Float64.compare_Z x y
  | VFloat x, VInt y => CompOpp <$> Float64.compare_Z y x
  | _, _ => None
  end.

(** [field >= bound] and [field <= bound]; a missing or non-numeric
    field satisfies neither. *)
Definition gte_sat (fv : option value) (bound : value) : bool :=
  match fv with
  | Some v => match compare_num v bound with
              | Some Gt | Some Eq => true
              | _ => false
              end
  | None => false
  end.

Definition lte_sat (fv : option value) (bound : value) : bool :=
  match fv with
  | Some v => match compare_num v bound with
              | Some Lt | Some Eq => true
              | _ => false
              end
  | None => false
  end.

Definition eq_sat (fv : option value) (s : string) : bool :=
  match fv with
  | Some (VStr s') => String.eqb s' s
  | _ => false
  end.

Definition is_number (v : value) : bool :=
  match v with
  | VInt _ | VFloat _ => true
  | _ => false
  end.

(** [limit] documents at most; all of them without a limit. *)
Definition truncate (limit : option Z) (docs : list document) : list document :=
  match limit with
  | Some n => take (Z.to_nat n) docs
  | None => docs
  end.

(** The connected store: the documents of each named collection. *)
Abbreviation database := (gmap string (list document)) (only parsing).

Definition collection (store : database) (name : string) : list document :=
  default [] (store !! name).

(** How the store's own engine matches a pattern that is outside the
    fragment of [Regex]: the pattern, then the subject. The store is
    external; everything below holds whatever this is. *)
Class RegexEngine := regex_beyond : string → string → bool.

Section Engine.

Context {engine : RegexEngine}.

(** [$regex]: a pattern of the fragment is run by [Regex]; any other
    pattern is left to the store's engine. *)
Definition regex_search (p s : string) : bool :=
  match Regex.compile p with
  | Some r => Regex.run r s
  | None => regex_beyond p s
  end.

Definition regex_sat (fv : option value) (arg : value) : bool :=
  match arg, fv with
  | VStr p, Some (VStr s) => regex_search p s
  | _, _ => false
  end.

(** Every operator of the dictionary must hold of the field. *)
Definition ops_sat (ops : gmap string value) (fv : option value) : bool :=
  from_option (regex_sat fv) true (ops !! "$regex")
  && from_option (gte_sat fv) true (ops !! "$gte")
  && from_option (lte_sat fv) true (ops !! "$lte").

Definition cond_sat (c : cond) (fv : option value) : bool :=
  match c with
  | CEq s => eq_sat fv s
  | COps ops => ops_sat ops fv
  end.

(** The filter is a conjunction over its keys. *)
Definition doc_matches (filt : filter_dict) (d : document) : bool :=
  forallb (λ kc, cond_sat kc.2 (d !! kc.1)) (map_to_list filt).

(** Modelled from the spec: [database.py], which defines [db] and
    [get_documents], is not among the sources. The spec's gateway
    contract is followed: the query returns the matching documents of
    the named collection truncated at [limit] (unbounded when the
    limit is absent), fails only when no connection is established, and
    returns an empty sequence when nothing matches. [db] is [None]
    when there is no connection. *)
Definition get_documents (db : option database) (collection_name : string)
    (filt : filter_dict) (limit : option Z) : result (list document) :=
  match db with
  | None => Raise StoreUnavailable
  | Some store =>
      Ok (truncate limit
            (filter (λ d, doc_matches filt d) (collection store collection_name)))
  end.

End Engine.

End Database.

Import Database.

(** What the interpreter's [str] yields on the values whose rendering is
    not spelled out below (floats and lists); used to instantiate the
    router at concrete inputs. *)
Definition str_placeholder (v : value) : string :=
  match v with
  | VFloat _ => "<float>"
  | _ => "<list>"
  end.

(** A store whose engine matches nothing outside the fragment; used to
    instantiate the router at concrete inputs. *)
Definition fragment_only : RegexEngine := λ _ _, false.

(** ** main.py: the request router *)

Section Router.

Context {engine : RegexEngine}.

(** [str] on floats and lists is the interpreter's own rendering; the
    router never depends on what it is. *)
Variable str_builtin : value → string.

(** [str(v)] *)
Definition py_str (v : value) : string :=
  match v with
  | VNone => "None"
  | VBool true => "True"
  | VBool false => "False"
  | VInt z => pretty z
  | VStr s => s
  | VObjectId hex => hex
  | VFloat _ | VList _ => str_builtin v
  end.

(** [d.get(k)]: [None] when the key is missing. *)
Definition dict_get (d : document) (k : string) : value := default VNone (d !! k).

(** [d["_id"] = str(d.get("_id"))] *)
Definition convert_id (d : document) : document :=
  <["_id" := VStr (py_str (dict_get d "_id"))]> d.

(** Truthiness of the optional query parameters. *)
Definition truthy_str (s : option string) : bool :=
  match s with
  | Some (String _ _) => true
  | _ => false
  end.

Definition truthy_int (z : option Z) : bool :=
  match z with
  | Some n => negb (n =? 0)
  | None => false
  end.

Definition truthy_float (f : option spec_float) : bool :=
  match f with
  | Some x => Float64.truthy x
  | None => false
  end.

(** The operator dictionary of a range: [$gte] when the lower bound
    is not [None], [$lte] when the upper bound is not [None]. *)
Definition range_ops (lower upper : option value) : gmap string value :=
  let ops : gmap string value := ∅ in
  let ops := match lower with
             | Some v => <["$gte" := v]> ops
             | None => ops
             end in
  let ops := match upper with
             | Some v => <["$lte" := v]> ops
             | None => ops
             end in
  ops.

(** [filt[key] = ops], guarded by [if ops:]. *)
Definition add_range (key : string) (ops : gmap string value)
    (filt : filter_dict) : filter_dict :=
  if bool_decide (ops = ∅) then filt else <[key := COps ops]> filt.

(** The dictionary [filt] that [list_predictions] hands to the store. *)
Definition list_predictions_filt (league date : option string)
    (min_odds max_odds : option spec_float) (min_conf max_conf : option Z)
    : filter_dict :=
  let filt : filter_dict := ∅ in
  let filt :=
    match league with
    | Some l => if truthy_str league then <["league" := CEq l]> filt else filt
    | None => filt
    end in
  let filt :=
    match date with
    | Some d =>
        if truthy_str date
        then <["kickoff_iso" := COps {[ "$regex" := VStr ("^" +:+ d) ]}]> filt
        else filt
    | None => filt
    end in
  let filt :=
    if truthy_int min_conf || truthy_int max_conf
    then add_range "confidence" (range_ops (VInt <$> min_conf) (VInt <$> max_conf)) filt
    else filt in
  let filt :=
    if truthy_float min_odds || truthy_float max_odds
    then add_range "odds" (range_ops (VFloat <$> min_odds) (VFloat <$> max_odds)) filt
    else filt in
  filt.

(** The JSON bodies the read endpoints return. *)
Inductive response :=
| Items (items : list document)
| Document (doc : document).

Definition unavailable : error := HTTPException 500 "Database not available".
Definition not_found : error := HTTPException 404 "Not found".

(** [GET /predictions] *)
Definition list_predictions (db : option database) (league date : option string)
    (min_odds max_odds : option spec_float) (min_conf max_conf : option Z)
    (limit : Z) : result response :=
  match db with
  | None => Raise unavailable
  | Some _ =>
      let filt := list_predictions_filt league date min_odds max_odds min_conf max_conf in
      docs ←! get_documents db "prediction" filt (Some limit);
      Ok (Items (convert_id <$> docs))
  end.

(** The lookups by key share one shape: query one document, fail with
    404 on an empty answer, else return the first document. *)
Definition first_or_404 (docs : list document) : result response :=
  match docs with
  | [] => Raise not_found
  | doc :: _ => Ok (Document (convert_id doc))
  end.

(** [GET /predictions/{match_id}] *)
Definition get_prediction (db : option database) (match_id : string) : result response :=
  match db with
  | None => Raise unavailable
  | Some _ =>
      docs ←! get_documents db "prediction" {[ "match_id" := CEq match_id ]} (Some 1);
      first_or_404 docs
  end.

(** [GET /blogs] *)
Definition list_blogs (db : option database) (limit : Z) : result response :=
  match db with
  | None => Raise unavailable
  | Some _ =>
      docs ←! get_documents db "blog" ∅ (Some limit);
      Ok (Items (convert_id <$> docs))
  end.

(** [GET /blogs/{slug}] *)
Definition get_blog (db : option database) (slug : string) : result response :=
  match db with
  | None => Raise unavailable
  | Some _ =>
      docs ←! get_documents db "blog" {[ "slug" := CEq slug ]} (Some 1);
      first_or_404 docs
  end.

Definition plan_fallback (code name : string) (monthly yearly : Z) : document :=
  list_to_map [("code", VStr code); ("name", VStr name);
               ("monthly_price", VInt monthly); ("yearly_price", VInt yearly);
               ("currency", VStr "USD")].

Definition fallback_plans : list document :=
  [plan_fallback "free" "Free" 0 0;
   plan_fallback "starter" "Starter" 19 180;
   plan_fallback "pro" "Pro" 49 468].

(** [GET /plans] *)
Definition get_plans (db : option database) : result response :=
  match db with
  | None => Ok (Items fallback_plans)
  | Some _ =>
      docs ←! get_documents db "plan" ∅ None;
      Ok (Items (convert_id <$> docs))
  end.

Definition legal_fallback (slug title content : string) : document :=
  list_to_map [("slug", VStr slug); ("title", VStr title); ("content", VStr content)].

(** [GET /legal/{slug}] *)
Definition get_legal (db : option database) (slug : string) : result response :=
  match db with
  | None =>
      if String.eqb slug "terms"
      then Ok (Document (legal_fallback "terms" "Terms of Service" "<p>Terms...</p>"))
      else if String.eqb slug "privacy"
      then Ok (Document (legal_fallback "privacy" "Privacy Policy" "<p>Privacy...</p>"))
      else if String.eqb slug "responsible-betting"
      then Ok (Document (legal_fallback "responsible-betting" "Responsible Betting"
                           "<p>Play responsibly.</p>"))
      else Raise not_found
  | Some _ =>
      docs ←! get_documents db "legal" {[ "slug" := CEq slug ]} (Some 1);
      first_or_404 docs
  end.

(** [GET /admin/testimonials] *)
Definition admin_testimonials (db : option database) (limit : Z) : result response :=
  match db with
  | None => Raise unavailable
  | Some _ =>
      docs ←! get_documents db "testimonial" ∅ (Some limit);
      Ok (Items (convert_id <$> docs))
  end.

(** A small store used to run the router on concrete requests. *)
Definition prediction_doc (oid : option value) (league match_id kickoff : string)
    (o : spec_float) (c : Z) : document :=
  let d : document :=
    list_to_map [("league", VStr league); ("match_id", VStr match_id);
                 ("kickoff_iso", VStr kickoff); ("odds", VFloat o);
                 ("confidence", VInt c); ("tags", VList [VStr "demo"])] in
  match oid with
  | Some v => <["_id" := v]> d
  | None => d
  end.

Definition demo_first : document :=
  prediction_doc (Some (VObjectId "65e6f0a1b2c3d4e5f6a7b8c9")) "Serie A" "M001"
    "2024-03-05T18:00:00Z" (Float64.of_ratio 16 10) 60.

(** A prediction stored without [_id]. *)
Definition demo_second : document :=
  prediction_doc None "La Liga" "M002" "2024-03-06T20:00:00Z" (Float64.of_ratio 18 10) 65.

Definition demo_store : database := {[ "prediction" := [demo_first; demo_second] ]}.

(** The read routes of the application and their dispatch. *)
Inductive request :=
| ListPredictions (league date : option string)
    (min_odds max_odds : option spec_float) (min_conf max_conf : option Z) (limit : Z)
| GetPrediction (match_id : string)
| ListBlogs (limit : Z)
| GetBlog (slug : string)
| GetPlans
| GetLegal (slug : string)
| AdminTestimonials (limit : Z).

Definition handle (db : option database) (req : request) : result response :=
  match req with
  | ListPredictions league date min_odds max_odds min_conf max_conf limit =>
      list_predictions db league date min_odds max_odds min_conf max_conf limit
  | GetPrediction match_id => get_prediction db match_id
  | ListBlogs limit => list_blogs db limit
  | GetBlog slug => get_blog db slug
  | GetPlans => get_plans db
  | GetLegal slug => get_legal db slug
  | AdminTestimonials limit => admin_testimonials db limit
  end.

(** The collection a route reads. *)
Definition collection_of (req : request) : string :=
  match req with
  | ListPredictions _ _ _ _ _ _ _ | GetPrediction _ => "prediction"
  | ListBlogs _ | GetBlog _ => "blog"
  | GetPlans => "plan"
  | GetLegal _ => "legal"
  | AdminTestimonials _ => "testimonial"
  end.

(** The documents a response carries. *)
Definition returned (r : result response) : list document :=
  match r with
  | Ok (Items items) => items
  | Ok (Document doc) => [doc]
  | Raise _ => []
  end.

(** The routes that answer with a list of items. *)
Definition is_listing (req : request) : bool :=
  match req with
  | ListPredictions _ _ _ _ _ _ _ | ListBlogs _ | GetPlans | AdminTestimonials _ => true
  | GetPrediction _ | GetBlog _ | GetLegal _ => false
  end.

(** ** The demo seed *)

(** What [create_document] is handed: an instance of a schema class. *)
Inductive model :=
| MPlan (p : Schemas.Plan)
| MBlog (b : Schemas.Blog)
| MPrediction (p : Schemas.Prediction)
| MTestimonial (t : Schemas.Testimonial)
| MLegal (l : Schemas.Legal).

(** [create_document] belongs to [database.py], which is not among the
    sources; the seed is modelled over any store and any behaviour of
    it: a call leaves a store and either returns ([true]) or raises
    ([false]). *)
Variable store_state : Type.
Variable create_document : string → model → store_state → store_state * bool.

(** [(dt.datetime.utcnow() + dt.timedelta(hours=i+6)).isoformat() + "Z"]
    as evaluated in the [i]-th iteration; the clock is outside the
    program. *)
Variable utc_kickoff : nat → string.

Definition seed_plans : list Schemas.Plan :=
  [ {| Schemas.plan_code := "free"; Schemas.plan_name := "Free";
       Schemas.monthly_price := Float64.of_Z 0; Schemas.yearly_price := Float64.of_Z 0;
       Schemas.plan_currency := "USD";
       Schemas.features := ["Limited daily picks"; "Blog access"] |};
    {| Schemas.plan_code := "starter"; Schemas.plan_name := "Starter";
       Schemas.monthly_price := Float64.of_Z 19; Schemas.yearly_price := Float64.of_Z 180;
       Schemas.plan_currency := "USD";
       Schemas.features := ["Daily picks"; "Confidence & risk labels"; "Email alerts"] |};
    {| Schemas.plan_code := "pro"; Schemas.plan_name := "Pro";
       Schemas.monthly_price := Float64.of_Z 49; Schemas.yearly_price := Float64.of_Z 468;
       Schemas.plan_currency := "USD";
       Schemas.features := ["All leagues"; "Advanced stats (xG)"; "Priority support";
                            "Telegram alerts"] |} ].

(** [Blog(slug=f"intro-{i}", ...)] for [i] in [range(1, 7)]. *)
Definition seed_blog (i : nat) : Schemas.Blog :=
  {| Schemas.blog_slug := "intro-" +:+ pretty i;
     Schemas.blog_title := "Data-Driven Football Insights #" +:+ pretty i;
     Schemas.excerpt := Some "How we model expected goals and risk.";
     Schemas.blog_content := "<p>Sample blog content for SEO.</p>";
     Schemas.cover_image := None;
     Schemas.author := Some "Analyst Team";
     Schemas.published_at := None;
     Schemas.language := Some "en";
     Schemas.blog_tags := Some [] |}.

Definition seed_blogs : list Schemas.Blog := seed_blog <$> seq 1 6.

Definition seed_leagues : list string :=
  ["Premier League"; "La Liga"; "Serie A"; "Ligue 1"; "Bundesliga"; "MLS"].

Definition seed_teams : list (string * string) :=
  [("Barcelona", "Real Madrid"); ("Man City", "Arsenal"); ("Bayern", "Dortmund");
   ("PSG", "Lyon"); ("Inter", "Juventus"); ("LAFC", "Seattle")].

(** [f"{n:03d}"]: the decimal digits, padded with zeros to three. *)
Definition format_03d (n : nat) : string :=
  let digits := pretty n in
  String.concat "" (replicate (3 - String.length digits)%nat "0") +:+ digits.

(** [a + n * b] with [n] an [int] and [a], [b] floats. *)
Definition float_affine (a : spec_float) (n : nat) (b : spec_float) : spec_float :=
  SFadd Float64.prec Float64.emax a
    (SFmul Float64.prec Float64.emax (Float64.of_Z (Z.of_nat n)) b).

(** The raw [Prediction(...)] of iteration [i] of [range(12)]. *)
Definition seed_prediction (i : nat) : Schemas.Prediction :=
  let team := nth (i mod length seed_teams) seed_teams ("", "") in
  {| Schemas.league := nth (i mod length seed_leagues) seed_leagues "";
     Schemas.country := Some "International";
     Schemas.match_id := "M" +:+ format_03d (i + 1);
     Schemas.home_team := team.1;
     Schemas.away_team := team.2;
     Schemas.kickoff_iso := utc_kickoff i;
     Schemas.pick :=
       nth (i mod 5) ["home_win"; "away_win"; "draw"; "over_2_5"; "under_2_5"] "";
     Schemas.odds := float_affine (Float64.of_ratio 16 10) (i mod 5) (Float64.of_ratio 2 10);
     Schemas.confidence := 60 + Z.of_nat (i mod 4) * 5;
     Schemas.risk := nth (i mod 3) ["low"; "medium"; "high"] "";
     Schemas.xg_home :=
       Some (float_affine (Float64.of_ratio 12 10) (i mod 3) (Float64.of_ratio 3 10));
     Schemas.xg_away :=
       Some (float_affine (Float64.of_ratio 9 10) (i mod 3) (Float64.of_ratio 2 10));
     Schemas.injuries := None;
     Schemas.weather := None;
     Schemas.head_to_head := None;
     Schemas.recent_form := Some "W-D-W-L-W";
     Schemas.analysis := Some "Model favors home due to xG and recent form.";
     Schemas.tags := Some ["demo"; "major-league"];
     Schemas.status := "pending" |}.

Definition seed_predictions : list Schemas.Prediction := seed_prediction <$> seq 0 12.

Definition seed_testimonials : list Schemas.Testimonial :=
  [ {| Schemas.testimonial_name := "Carlos"; Schemas.location := Some "Mexico";
       Schemas.message := "Doubled my bankroll with safer picks.";
       Schemas.slip_image := None; Schemas.verified := true |};
    {| Schemas.testimonial_name := "Aïcha"; Schemas.location := Some "Senegal";
       Schemas.message := "Great xG insights, very helpful!";
       Schemas.slip_image := None; Schemas.verified := true |} ].

Definition seed_legal : list Schemas.Legal :=
  [ {| Schemas.legal_slug := "terms"; Schemas.legal_title := "Terms of Service";
       Schemas.legal_content := "<p>Terms...</p>"; Schemas.updated_at := None |};
    {| Schemas.legal_slug := "privacy"; Schemas.legal_title := "Privacy Policy";
       Schemas.legal_content := "<p>Privacy...</p>"; Schemas.updated_at := None |};
    {| Schemas.legal_slug := "responsible-betting";
       Schemas.legal_title := "Responsible Betting";
       Schemas.legal_content := "<p>Play responsibly.</p>";
       Schemas.updated_at := None |} ].

(** One pass of [try: create_document(name, m); created += 1] /
    [except Exception: pass]. *)
Definition try_create (name : string) (acc : store_state * Z) (m : model)
    : store_state * Z :=
  let (st', ok) := create_document name m acc.1 in
  (st', if ok then acc.2 + 1 else acc.2).

Definition create_each (name : string) (ms : list model) (acc : store_state * Z)
    : store_state * Z :=
  foldl (try_create name) acc ms.

(** [POST /seed/demo]: the store it leaves and the [created] of its
    [SeedResult]; [None] when the construction of a model raises its
    validation error, which no handler catches. *)
Definition seed_demo_content (st : store_state) : option (store_state * Z) :=
  plans ← mapM Schemas.validate_plan seed_plans;
  let acc := create_each "plan" (MPlan <$> plans) (st, 0) in
  let acc := create_each "blog" (MBlog <$> seed_blogs) acc in
  samples ← mapM Schemas.validate seed_predictions;
  let acc := create_each "prediction" (MPrediction <$> samples) acc in
  let acc := create_each "testimonial" (MTestimonial <$> seed_testimonials) acc in
  legal ← mapM Schemas.validate_legal seed_legal;
  Some (create_each "legal" (MLegal <$> legal) acc).

(** Two stores to run the seed on: one that keeps every document it
    is handed, one whose every write raises. *)
Definition keeping_create (name : string) (m : model) (st : list (string * model))
    : list (string * model) * bool :=
  ((st ++ [(name, m)])%list, true).

Definition raising_create (name : string) (m : model) (st : list (string * model))
    : list (string * model) * bool :=
  (st, false).

(** ** The health probe *)






(** ** Validation of predictions *)

Lemma reported_iff_check_fails (checks : list (string * bool)) (name : string) :
  name ∈ (fst <$> filter (λ fc, negb (snd fc)) checks) ↔ (name, false) ∈ checks.
Proof.
  rewrite list_elem_of_fmap. split.
  - intros [[n b] [-> Hin]]. apply list_elem_of_filter in Hin as [Hb Hin].
    simpl in *. destruct b; [done | exact Hin].
  - intros Hin. exists (name, false). split; [done |].
    apply list_elem_of_filter. split; [done | exact Hin].
Qed.

Lemma odds_reported (p : Schemas.Prediction) :
  "odds" ∈ Schemas.validation_errors p ↔ Schemas.odds_ok (Schemas.odds p) = false.
Proof.
  unfold Schemas.validation_errors. rewrite reported_iff_check_fails.
  unfold Schemas.field_checks. rewrite !elem_of_cons, elem_of_nil.
  split.
  - intros H. repeat (destruct H as [H | H]; try discriminate H).
    + injection H as H. symmetry. exact H.
    + destruct H.
  - intros H. right. left. rewrite H. reflexivity.
Qed.

Lemma confidence_reported (p : Schemas.Prediction) :
  "confidence" ∈ Schemas.validation_errors p
  ↔ Schemas.confidence_ok (Schemas.confidence p) = false.
Proof.
  unfold Schemas.validation_errors. rewrite reported_iff_check_fails.
  unfold Schemas.field_checks. rewrite !elem_of_cons, elem_of_nil.
  split.
  - intros H. repeat (destruct H as [H | H]; try discriminate H).
    + injection H as H. symmetry. exact H.
    + destruct H.
  - intros H. do 2 right. left. rewrite H. reflexivity.
Qed.

Lemma reported_rejects (p : Schemas.Prediction) (name : string) :
  name ∈ Schemas.validation_errors p → Schemas.validate p = None.
Proof.
  unfold Schemas.validate. intros H.
  destruct (Schemas.validation_errors p); [by apply elem_of_nil in H | done].
Qed.

(** The float constants are the binary64 values of their decimal
    literals. *)
Lemma float_literals :
  Float64.of_Z 1 = Float64.one
  ∧ Float64.of_ratio 10001 10000 = Float64.one_and_a_ten_thousandth
  ∧ Float64.is_double Float64.one = true
  ∧ Float64.is_double Float64.one_and_a_ten_thousandth = true.
Proof. repeat split; by vm_compute. Qed.

(** On numbers, [<] against a positive finite float is the
    complement of [>=]. *)
Lemma SFltb_finite_negb_SFleb (m1 : positive) (e1 : Z) (o : spec_float) :
  o ≠ S754_nan →
  SFltb (S754_finite false m1 e1) o = negb (SFleb o (S754_finite false m1 e1)).
Proof.
  intros Hnan. unfold SFltb, SFleb.
  destruct o as [s | s | | s m e]; [reflexivity | | congruence |].
  - destruct s; reflexivity.
  - destruct s; [reflexivity |]. cbn [SFcompare].
    rewrite (Z.compare_antisym e e1).
    destruct (e ?= e1); cbn [CompOpp negb]; try reflexivity.
    change (Pos.compare_cont Eq m m1) with (m ?= m1)%positive.
    change (Pos.compare_cont Eq m1 m) with (m1 ?= m)%positive.
    rewrite (Pos.compare_antisym m m1).
    destruct (m ?= m1)%positive; reflexivity.
Qed.

Lemma gt_one_iff_not_le (o : spec_float) :
  o ≠ S754_nan →
  Float64.gt o Float64.one = negb (Float64.le o Float64.one).
Proof. apply SFltb_finite_negb_SFleb. Qed.

(** C6: a submitted prediction whose odds are at most 1.0 is rejected,
    with the odds field reported; odds above 1.0 pass the odds check.
    Every number is in one of the two cases. The boundary 1.0 is
    rejected and 1.0001 is accepted. *)
Theorem odds_must_exceed_one (p : Schemas.Prediction) :
  (Float64.le (Schemas.odds p) Float64.one = true →
     "odds" ∈ Schemas.validation_errors p ∧ Schemas.validate p = None)
  ∧ (Schemas.odds p ≠ S754_nan →
     Float64.le (Schemas.odds p) Float64.one = false →
     "odds" ∉ Schemas.validation_errors p)
  ∧ Schemas.validate (Schemas.sample Float64.one 60) = None
  ∧ Schemas.validate (Schemas.sample Float64.one_and_a_ten_thousandth 60)
    = Some (Schemas.sample Float64.one_and_a_ten_thousandth 60).
Proof.
  split; [| split; [| split]].
  - intros Hle.
    assert (Hrep : "odds" ∈ Schemas.validation_errors p).
    { apply odds_reported. unfold Schemas.odds_ok.
      rewrite gt_one_iff_not_le; [by rewrite Hle |].
      intros Ho. rewrite Ho in Hle. discriminate Hle. }
    split; [exact Hrep | by eapply reported_rejects].
  - intros Hnan Hle Hrep. apply odds_reported in Hrep.
    unfold Schemas.odds_ok in Hrep.
    rewrite gt_one_iff_not_le in Hrep by done. by rewrite Hle in Hrep.
  - by vm_compute.
  - by vm_compute.
Qed.

(** C7: a confidence outside [1, 100] is reported and the prediction
    rejected; a confidence inside passes; 1 and 100 are accepted. *)
Theorem confidence_within_1_100 (p : Schemas.Prediction) :
  ("confidence" ∈ Schemas.validation_errors p
     ↔ Schemas.confidence p < 1 ∨ 100 < Schemas.confidence p)
  ∧ (Schemas.confidence p < 1 ∨ 100 < Schemas.confidence p → Schemas.validate p = None)
  ∧ Schemas.validate (Schemas.sample (Float64.of_ratio 16 10) 1)
    = Some (Schemas.sample (Float64.of_ratio 16 10) 1)
  ∧ Schemas.validate (Schemas.sample (Float64.of_ratio 16 10) 100)
    = Some (Schemas.sample (Float64.of_ratio 16 10) 100).
Proof.
  assert (Hiff : "confidence" ∈ Schemas.validation_errors p
                 ↔ Schemas.confidence p < 1 ∨ 100 < Schemas.confidence p).
  { rewrite confidence_reported. unfold Schemas.confidence_ok.
    rewrite andb_false_iff, !Z.leb_gt. reflexivity. }
  split; [exact Hiff | split; [| split]].
  - intros H. eapply reported_rejects. apply Hiff, H.
  - by vm_compute.
  - by vm_compute.
Qed.

(** ** The filter of [list_predictions] *)

Lemma add_range_lookup_ne (key k : string) (ops : gmap string value)
    (filt : gmap string cond) :
  key ≠ k → add_range key ops filt !! k = filt !! k.
Proof.
  intros Hne. unfold add_range. case_bool_decide; [done |].
  by rewrite lookup_insert_ne.
Qed.

(** Without a truthy confidence bound the filter has no confidence key. *)
Lemma no_truthy_conf_no_key (league date : option string)
    (min_odds max_odds : option spec_float) (min_conf max_conf : option Z) :
  truthy_int min_conf || truthy_int max_conf = false →
  list_predictions_filt league date min_odds max_odds min_conf max_conf
    !! "confidence" = None.
Proof.
  intros Hfalsy. unfold list_predictions_filt. rewrite Hfalsy.
  destruct (truthy_float min_odds || truthy_float max_odds);
    rewrite ?add_range_lookup_ne by done;
    destruct league as [[|? ?]|], date as [[|? ?]|]; cbn [truthy_str];
    by simplify_map_eq.
Qed.

(** Without a truthy odds bound the filter has no odds key. *)
Lemma no_truthy_odds_no_key (league date : option string)
    (min_odds max_odds : option spec_float) (min_conf max_conf : option Z) :
  truthy_float min_odds || truthy_float max_odds = false →
  list_predictions_filt league date min_odds max_odds min_conf max_conf
    !! "odds" = None.
Proof.
  intros Hfalsy. unfold list_predictions_filt. rewrite Hfalsy.
  destruct (truthy_int min_conf || truthy_int max_conf);
    rewrite ?add_range_lookup_ne by done;
    destruct league as [[|? ?]|], date as [[|? ?]|]; cbn [truthy_str];
    by simplify_map_eq.
Qed.

(** A falsy league adds no league key. *)
Lemma no_truthy_league_no_key (league date : option string)
    (min_odds max_odds : option spec_float) (min_conf max_conf : option Z) :
  truthy_str league = false →
  list_predictions_filt league date min_odds max_odds min_conf max_conf
    !! "league" = None.
Proof.
  intros Hfalsy. unfold list_predictions_filt.
  destruct (truthy_int min_conf || truthy_int max_conf),
    (truthy_float min_odds || truthy_float max_odds);
    rewrite ?add_range_lookup_ne by done;
    destruct league as [[|? ?]|], date as [[|? ?]|]; try discriminate Hfalsy;
    cbn [truthy_str]; by simplify_map_eq.
Qed.

(** C1: [min_conf=0] with [max_conf] absent, and [min_odds=0] (either
    zero of the floats) with [max_odds] absent, give the filter and
    the response of a request without that bound, and the filter has
    no confidence (resp. odds) condition. *)
Theorem zero_lower_bound_is_not_supplied (db : option database)
    (league date : option string) (limit : Z) :
  (∀ min_odds max_odds : option spec_float,
     list_predictions_filt league date min_odds max_odds (Some 0) None
     = list_predictions_filt league date min_odds max_odds None None
     ∧ list_predictions_filt league date min_odds max_odds (Some 0) None
         !! "confidence" = None
     ∧ list_predictions db league date min_odds max_odds (Some 0) None limit
       = list_predictions db league date min_odds max_odds None None limit)
  ∧ (∀ (sign : bool) (min_conf max_conf : option Z),
       list_predictions_filt league date (Some (S754_zero sign)) None min_conf max_conf
       = list_predictions_filt league date None None min_conf max_conf
       ∧ list_predictions_filt league date (Some (S754_zero sign)) None min_conf max_conf
           !! "odds" = None
       ∧ list_predictions db league date (Some (S754_zero sign)) None min_conf max_conf limit
         = list_predictions db league date None None min_conf max_conf limit).
Proof.
  split.
  - intros min_odds max_odds. split; [reflexivity | split].
    + by apply no_truthy_conf_no_key.
    + reflexivity.
  - intros sign min_conf max_conf. split; [reflexivity | split].
    + by apply no_truthy_odds_no_key.
    + reflexivity.
Qed.

(** C9: [league=""] gives the filter and the response of a request
    without a league, and the filter has no league condition. *)
Theorem empty_league_is_not_supplied (db : option database) (date : option string)
    (min_odds max_odds : option spec_float) (min_conf max_conf : option Z)
    (limit : Z) :
  list_predictions_filt (Some "") date min_odds max_odds min_conf max_conf
  = list_predictions_filt None date min_odds max_odds min_conf max_conf
  ∧ list_predictions_filt (Some "") date min_odds max_odds min_conf max_conf
      !! "league" = None
  ∧ list_predictions db (Some "") date min_odds max_odds min_conf max_conf limit
    = list_predictions db None date min_odds max_odds min_conf max_conf limit.
Proof.
  split; [reflexivity | split].
  - by apply no_truthy_league_no_key.
  - reflexivity.
Qed.

(** ** The store is unavailable *)

(** C3: without a connection, the plans listing succeeds with the
    three fixed plans free, starter and pro; the legal lookup succeeds
    with a page of fixed slug, title and content, and nothing else, for
    terms, privacy and responsible-betting and raises 404 for any other
    slug; the prediction, blog and testimonial reads raise the 500
    "Database not available". *)
Theorem unavailable_store_fallbacks :
  get_plans None
  = Ok (Items
          [list_to_map [("code", VStr "free"); ("name", VStr "Free");
                        ("monthly_price", VInt 0); ("yearly_price", VInt 0);
                        ("currency", VStr "USD")];
           list_to_map [("code", VStr "starter"); ("name", VStr "Starter");
                        ("monthly_price", VInt 19); ("yearly_price", VInt 180);
                        ("currency", VStr "USD")];
           list_to_map [("code", VStr "pro"); ("name", VStr "Pro");
                        ("monthly_price", VInt 49); ("yearly_price", VInt 468);
                        ("currency", VStr "USD")]])
  ∧ get_legal None "terms"
    = Ok (Document (list_to_map [("slug", VStr "terms");
                                 ("title", VStr "Terms of Service");
                                 ("content", VStr "<p>Terms...</p>")]))
  ∧ get_legal None "privacy"
    = Ok (Document (list_to_map [("slug", VStr "privacy");
                                 ("title", VStr "Privacy Policy");
                                 ("content", VStr "<p>Privacy...</p>")]))
  ∧ get_legal None "responsible-betting"
    = Ok (Document (list_to_map [("slug", VStr "responsible-betting");
                                 ("title", VStr "Responsible Betting");
                                 ("content", VStr "<p>Play responsibly.</p>")]))
  ∧ (∀ slug : string,
       slug ∉ ["terms"; "privacy"; "responsible-betting"] →
       get_legal None slug = Raise (HTTPException 404 "Not found"))
  ∧ (∀ league date min_odds max_odds min_conf max_conf limit,
       list_predictions None league date min_odds max_odds min_conf max_conf limit
       = Raise (HTTPException 500 "Database not available"))
  ∧ (∀ match_id, get_prediction None match_id
                 = Raise (HTTPException 500 "Database not available"))
  ∧ (∀ limit, list_blogs None limit = Raise (HTTPException 500 "Database not available"))
  ∧ (∀ slug, get_blog None slug = Raise (HTTPException 500 "Database not available"))
  ∧ (∀ limit, admin_testimonials None limit
              = Raise (HTTPException 500 "Database not available")).
Proof.
  do 4 (split; [reflexivity |]).
  split; [| by repeat split].
  intros slug Hslug. unfold get_legal.
  rewrite !not_elem_of_cons in Hslug. destruct Hslug as (H1 & H2 & H3 & _).
  apply String.eqb_neq in H1, H2, H3. by rewrite H1, H2, H3.
Qed.

(** ** The store is available *)

Lemma doc_matches_empty (d : gmap string value) : doc_matches ∅ d = true.
Proof. unfold doc_matches. by rewrite map_to_list_empty. Qed.

Lemma doc_matches_singleton (k : string) (c : cond) (d : gmap string value) :
  doc_matches {[ k := c ]} d = cond_sat c (d !! k).
Proof.
  unfold doc_matches. rewrite map_to_list_singleton. simpl. apply andb_true_r.
Qed.

(** The filter is the conjunction of its conditions. *)
Lemma doc_matches_conjunction (filt : gmap string cond) (d : gmap string value) :
  doc_matches filt d = true
  ↔ ∀ k c, filt !! k = Some c → cond_sat c (d !! k) = true.
Proof.
  unfold doc_matches. rewrite <- Is_true_true, forallb_True, Forall_forall.
  split.
  - intros H k c Hk. apply Is_true_true.
    apply (H (k, c)). by apply elem_of_map_to_list.
  - intros H [k c] Hin. apply Is_true_true. simpl.
    apply H. by apply elem_of_map_to_list.
Qed.

Lemma truncate_subseteq (limit : option Z) (docs : list (gmap string value))
    (d : gmap string value) :
  d ∈ truncate limit docs → d ∈ docs.
Proof.
  destruct limit as [n |]; simpl; [| done]. apply subseteq_take.
Qed.

Lemma filter_none {A : Type} (P : A → Prop) `{!∀ x, Decision (P x)} (l : list A) :
  (∀ x, x ∈ l → ¬ P x) → filter P l = [].
Proof.
  induction l as [| x l IH]; intros Hnone; [done |].
  rewrite filter_cons_False by (apply Hnone; left).
  apply IH. intros y Hy. apply Hnone. by right.
Qed.

(** What the gateway answers is taken from the named collection and
    matches the filter. *)
Lemma get_documents_elem (store : gmap string (list (gmap string value)))
    (name : string) (filt : gmap string cond) (limit : option Z)
    (docs : list (gmap string value)) (d : gmap string value) :
  get_documents (Some store) name filt limit = Ok docs →
  d ∈ docs →
  d ∈ collection store name ∧ doc_matches filt d = true.
Proof.
  unfold get_documents. intros [= <-] Hin. apply truncate_subseteq, list_elem_of_filter in Hin.
  destruct Hin as [Hm Hin]. split; [done | by apply Is_true_true].
Qed.

Lemma get_documents_no_match (store : gmap string (list (gmap string value)))
    (name : string) (filt : gmap string cond) (limit : option Z) :
  (∀ d, d ∈ collection store name → doc_matches filt d = false) →
  get_documents (Some store) name filt limit = Ok [].
Proof.
  intros Hnone. unfold get_documents. f_equal.
  rewrite filter_none.
  - destruct limit; simpl; [apply take_nil | reflexivity].
  - intros d Hd Hm. apply Is_true_true in Hm. by rewrite (Hnone d Hd) in Hm.
Qed.

Lemma lookup_by_key_404 (store : gmap string (list (gmap string value)))
    (name key wanted : string) :
  (∀ d, d ∈ collection store name → d !! key ≠ Some (VStr wanted)) →
  (docs ←! get_documents (Some store) name {[ key := CEq wanted ]} (Some 1);
   first_or_404 docs) = Raise (HTTPException 404 "Not found").
Proof.
  intros Habsent. rewrite get_documents_no_match; [done |].
  intros d Hd. rewrite doc_matches_singleton. simpl. unfold eq_sat.
  specialize (Habsent d Hd).
  destruct (d !! key) as [[| | | | s | |] |]; try done.
  apply String.eqb_neq. congruence.
Qed.

Lemma not_meta_not_special (c : ascii) :
  Regex.is_meta c = false → Ascii.eqb c "\" = false ∧ Ascii.eqb c "." = false.
Proof.
  intros Hc. split; apply Ascii.eqb_neq; intros ->; by vm_compute in Hc.
Qed.

Lemma parse_atoms_plain (s : string) :
  Regex.plain s = true →
  Regex.parse_atoms s = Some (Regex.Lit <$> list_ascii_of_string s).
Proof.
  unfold Regex.plain. induction s as [| c s IH]; [done |].
  cbn [list_ascii_of_string forallb Regex.parse_atoms].
  intros [Hc Hs]%andb_true_iff. apply negb_true_iff in Hc.
  destruct (not_meta_not_special c Hc) as [-> ->]. rewrite Hc, (IH Hs).
  reflexivity.
Qed.

Lemma matches_here_literals (d s : string) :
  Regex.matches_here (Regex.Lit <$> list_ascii_of_string d) s = String.prefix d s.
Proof.
  revert s. induction d as [| c d IH]; intros s; [by destruct s |].
  destruct s as [| c' s]; [done |].
  cbn [list_ascii_of_string fmap list_fmap Regex.matches_here Regex.atom_matches
       String.prefix].
  rewrite IH. destruct (ascii_dec c c') as [-> | Hne].
  - by rewrite Ascii.eqb_refl.
  - apply Ascii.eqb_neq in Hne. by rewrite Hne.
Qed.

(** C4: with the store available, a lookup by match id, blog slug or
    legal slug that no stored document carries raises 404 "Not
    found"; a listing whose query no document matches succeeds with an
    empty list of items. *)
Theorem lookup_404_listing_empty (store : gmap string (list (gmap string value))) :
  (∀ match_id,
     (∀ d, d ∈ collection store "prediction" → d !! "match_id" ≠ Some (VStr match_id)) →
     get_prediction (Some store) match_id = Raise (HTTPException 404 "Not found"))
  ∧ (∀ slug,
       (∀ d, d ∈ collection store "blog" → d !! "slug" ≠ Some (VStr slug)) →
       get_blog (Some store) slug = Raise (HTTPException 404 "Not found"))
  ∧ (∀ slug,
       (∀ d, d ∈ collection store "legal" → d !! "slug" ≠ Some (VStr slug)) →
       get_legal (Some store) slug = Raise (HTTPException 404 "Not found"))
  ∧ (∀ league date min_odds max_odds min_conf max_conf limit,
       let filt := list_predictions_filt league date min_odds max_odds min_conf max_conf in
       (∀ d, d ∈ collection store "prediction" → doc_matches filt d = false) →
       list_predictions (Some store) league date min_odds max_odds min_conf max_conf limit
       = Ok (Items []))
  ∧ (collection store "blog" = [] → ∀ limit, list_blogs (Some store) limit = Ok (Items []))
  ∧ (collection store "testimonial" = [] →
     ∀ limit, admin_testimonials (Some store) limit = Ok (Items []))
  ∧ (collection store "plan" = [] → get_plans (Some store) = Ok (Items [])).
Proof.
  split; [| split; [| split; [| split; [| split; [| split]]]]].
  - intros match_id H. by apply lookup_by_key_404.
  - intros slug H. by apply lookup_by_key_404.
  - intros slug H. by apply lookup_by_key_404.
  - intros league date min_odds max_odds min_conf max_conf limit filt Hnone.
    unfold list_predictions. fold filt.
    by rewrite get_documents_no_match.
  - intros Hempty limit. unfold list_blogs.
    rewrite get_documents_no_match; [done |].
    intros d Hd. rewrite Hempty in Hd. by apply elem_of_nil in Hd.
  - intros Hempty limit. unfold admin_testimonials.
    rewrite get_documents_no_match; [done |].
    intros d Hd. rewrite Hempty in Hd. by apply elem_of_nil in Hd.
  - intros Hempty. unfold get_plans.
    rewrite get_documents_no_match; [done |].
    intros d Hd. rewrite Hempty in Hd. by apply elem_of_nil in Hd.
Qed.

(** ** The shape of returned documents *)

Lemma convert_id_lookup_id (d : gmap string value) :
  convert_id d !! "_id" = Some (VStr (py_str (dict_get d "_id"))).
Proof. unfold convert_id. apply lookup_insert_eq. Qed.

Lemma convert_id_lookup_other (d : gmap string value) (k : string) :
  k ≠ "_id" → convert_id d !! k = d !! k.
Proof. intros Hk. unfold convert_id. by rewrite lookup_insert_ne. Qed.

Lemma convert_id_missing (d : gmap string value) :
  d !! "_id" = None → convert_id d !! "_id" = Some (VStr "None").
Proof.
  intros Hmissing. rewrite convert_id_lookup_id. unfold dict_get.
  by rewrite Hmissing.
Qed.

Lemma listing_returned (store : gmap string (list (gmap string value)))
    (name : string) (filt : gmap string cond) (limit : option Z)
    (r : gmap string value) :
  r ∈ returned (docs ←! get_documents (Some store) name filt limit;
                Ok (Items (convert_id <$> docs))) →
  ∃ d, d ∈ collection store name ∧ r = convert_id d.
Proof.
  destruct (get_documents (Some store) name filt limit) as [docs | e] eqn:Hget;
    simpl; [| by intros ?%elem_of_nil].
  intros (d & -> & Hd)%list_elem_of_fmap. exists d. split; [| done].
  by eapply get_documents_elem.
Qed.

Lemma lookup_returned (store : gmap string (list (gmap string value)))
    (name : string) (filt : gmap string cond) (limit : option Z)
    (r : gmap string value) :
  r ∈ returned (docs ←! get_documents (Some store) name filt limit;
                first_or_404 docs) →
  ∃ d, d ∈ collection store name ∧ r = convert_id d.
Proof.
  destruct (get_documents (Some store) name filt limit) as [docs | e] eqn:Hget;
    simpl; [| by intros ?%elem_of_nil].
  destruct docs as [| d docs]; simpl; [by intros ?%elem_of_nil |].
  intros ->%list_elem_of_singleton. exists d. split; [| done].
  eapply get_documents_elem; [exact Hget | left].
Qed.

(** Every returned document is a stored document of the route's
    collection with its [_id] converted. *)
Lemma returned_from_store (store : gmap string (list (gmap string value)))
    (req : request) (r : gmap string value) :
  r ∈ returned (handle (Some store) req) →
  ∃ d, d ∈ collection store (collection_of req) ∧ r = convert_id d.
Proof.
  destruct req; cbn [handle collection_of];
    unfold list_predictions, get_prediction, list_blogs, get_blog, get_plans,
      get_legal, admin_testimonials;
    first [apply listing_returned | apply lookup_returned].
Qed.

(** C8: every document returned by a read operation with the store
    available is a stored document whose [_id] holds the string
    rendering of the stored identifier and whose other fields are
    those of the stored document. *)
Theorem only_the_identifier_is_rewritten
    (store : gmap string (list (gmap string value))) (req : request)
    (r : gmap string value) :
  r ∈ returned (handle (Some store) req) →
  ∃ d, d ∈ collection store (collection_of req)
       ∧ r !! "_id" = Some (VStr (py_str (dict_get d "_id")))
       ∧ ∀ k, k ≠ "_id" → r !! k = d !! k.
Proof.
  intros (d & Hd & ->)%returned_from_store. exists d.
  split; [exact Hd | split].
  - apply convert_id_lookup_id.
  - intros k Hk. by apply convert_id_lookup_other.
Qed.

(** C10: the [_id] of every document returned with the store
    available is a string; when the stored document has no [_id], it
    is the string "None", and the document is returned like any other
    (the second demo prediction, stored without [_id], is served). *)
Theorem identifier_is_always_a_string
    (store : gmap string (list (gmap string value))) (req : request)
    (r : gmap string value) :
  (r ∈ returned (handle (Some store) req) →
   (∃ s, r !! "_id" = Some (VStr s))
   ∧ ∃ d, d ∈ collection store (collection_of req) ∧ r = convert_id d
          ∧ (d !! "_id" = None → r !! "_id" = Some (VStr "None")))
  ∧ (λ d : gmap string value, (d !! "match_id", d !! "_id"))
      <$> returned (get_prediction (Some demo_store) "M002")
    = [(Some (VStr "M002"), Some (VStr "None"))].
Proof.
  split; [| by vm_compute].
  intros (d & Hd & ->)%returned_from_store. split.
  - eexists. apply convert_id_lookup_id.
  - exists d. split; [exact Hd | split; [done |]]. apply convert_id_missing.
Qed.

(** ** The date condition *)

(** A truthy date puts the pattern [^date] under the kickoff key. *)
Lemma date_key (league : option string) (date : string)
    (min_odds max_odds : option spec_float) (min_conf max_conf : option Z) :
  date ≠ "" →
  list_predictions_filt league (Some date) min_odds max_odds min_conf max_conf
    !! "kickoff_iso" = Some (COps {[ "$regex" := VStr ("^" +:+ date) ]}).
Proof.
  intros Hdate. unfold list_predictions_filt.
  destruct (truthy_int min_conf || truthy_int max_conf),
    (truthy_float min_odds || truthy_float max_odds);
    rewrite ?add_range_lookup_ne by done;
    destruct date as [| ? ?]; try done; cbn [truthy_str];
    by rewrite lookup_insert_eq.
Qed.

(** A date without metacharacters selects by string prefix: the
    kickoff condition holds of a document exactly when its kickoff
    string starts with the date. *)
Lemma plain_date_selects_prefix (date kickoff : string) (d : gmap string value) :
  Regex.plain date = true →
  d !! "kickoff_iso" = Some (VStr kickoff) →
  cond_sat (COps {[ "$regex" := VStr ("^" +:+ date) ]}) (d !! "kickoff_iso")
  = String.prefix date kickoff.
Proof.
  intros Hplain ->. cbn [cond_sat]. unfold ops_sat.
  rewrite lookup_singleton_eq, !lookup_singleton_ne by done.
  cbn [from_option regex_sat]. rewrite !andb_true_r.
  change ("^" +:+ date) with (String "^" date).
  unfold regex_search. cbn [Regex.compile]. rewrite Ascii.eqb_refl, (parse_atoms_plain _ Hplain).
  cbn [fmap option_fmap option_map Regex.run Regex.anchored Regex.atoms].
  apply matches_here_literals.
Qed.

(** The spec's example: the date 2024-03-05 selects the kickoff on
    that day and not the one on the next. *)
Lemma date_example :
  (λ d : gmap string value, d !! "match_id")
    <$> returned (list_predictions (Some demo_store) None (Some "2024-03-05")
                    None None None None 20)
  = [Some (VStr "M001")].
Proof. by vm_compute. Qed.

(** C2: the date is interpolated into a pattern, so a date with a
    metacharacter selects documents whose kickoff string does not
    start with it: the date [2024-03-0.] selects the kickoffs of both
    2024-03-05 and 2024-03-06, neither of which starts with that
    date. *)
Theorem date_metacharacter_selects_beyond_prefix :
  list_predictions_filt None (Some "2024-03-0.") None None None None
  = {[ "kickoff_iso" := COps {[ "$regex" := VStr "^2024-03-0." ]} ]}
  ∧ (λ d : gmap string value, d !! "kickoff_iso") <$> collection demo_store "prediction"
    = [Some (VStr "2024-03-05T18:00:00Z"); Some (VStr "2024-03-06T20:00:00Z")]
  ∧ String.prefix "2024-03-0." "2024-03-05T18:00:00Z" = false
  ∧ String.prefix "2024-03-0." "2024-03-06T20:00:00Z" = false
  ∧ (λ d : gmap string value, d !! "kickoff_iso")
      <$> returned (list_predictions (Some demo_store) None (Some "2024-03-0.")
                      None None None None 20)
    = [Some (VStr "2024-03-05T18:00:00Z"); Some (VStr "2024-03-06T20:00:00Z")].
Proof. repeat split; by vm_compute. Qed.

(** ** The range conditions *)

Lemma range_ops_gte (lower upper : option value) :
  range_ops lower upper !! "$gte" = lower.
Proof. unfold range_ops. destruct lower, upper; by simplify_map_eq. Qed.

Lemma range_ops_lte (lower upper : option value) :
  range_ops lower upper !! "$lte" = upper.
Proof. unfold range_ops. destruct lower, upper; by simplify_map_eq. Qed.

Lemma range_ops_regex (lower upper : option value) :
  range_ops lower upper !! "$regex" = None.
Proof. unfold range_ops. destruct lower, upper; by simplify_map_eq. Qed.

Lemma range_ops_empty (lower upper : option value) :
  range_ops lower upper = ∅ ↔ lower = None ∧ upper = None.
Proof.
  split.
  - intros Hempty. split.
    + by rewrite <- (range_ops_gte lower upper), Hempty.
    + by rewrite <- (range_ops_lte lower upper), Hempty.
  - by intros [-> ->].
Qed.

(** The confidence condition is in the filter exactly when one of the
    two bounds is truthy (neither [None] nor zero); it then carries
    every bound that is not [None]. *)
Lemma confidence_key_iff_truthy (league date : option string)
    (min_odds max_odds : option spec_float) (min_conf max_conf : option Z) :
  list_predictions_filt league date min_odds max_odds min_conf max_conf !! "confidence"
  = if truthy_int min_conf || truthy_int max_conf
    then Some (COps (range_ops (VInt <$> min_conf) (VInt <$> max_conf)))
    else None.
Proof.
  destruct (truthy_int min_conf || truthy_int max_conf) eqn:Htruthy;
    [| by apply no_truthy_conf_no_key].
  unfold list_predictions_filt. rewrite Htruthy.
  destruct (truthy_float min_odds || truthy_float max_odds);
    rewrite ?add_range_lookup_ne by done;
    unfold add_range; rewrite bool_decide_eq_false_2;
    try (by rewrite lookup_insert_eq);
    rewrite range_ops_empty; intros [Hlo Hhi];
    destruct min_conf, max_conf; done.
Qed.

(** The odds condition, likewise. *)
Lemma odds_key_iff_truthy (league date : option string)
    (min_odds max_odds : option spec_float) (min_conf max_conf : option Z) :
  list_predictions_filt league date min_odds max_odds min_conf max_conf !! "odds"
  = if truthy_float min_odds || truthy_float max_odds
    then Some (COps (range_ops (VFloat <$> min_odds) (VFloat <$> max_odds)))
    else None.
Proof.
  destruct (truthy_float min_odds || truthy_float max_odds) eqn:Htruthy;
    [| by apply no_truthy_odds_no_key].
  unfold list_predictions_filt. rewrite Htruthy.
  unfold add_range at 1. rewrite bool_decide_eq_false_2.
  - by rewrite lookup_insert_eq.
  - rewrite range_ops_empty. intros [Hlo Hhi].
    destruct min_odds, max_odds; done.
Qed.

(** Both bounds of a range are inclusive. *)
Lemma confidence_range_inclusive (lower upper c : Z) :
  ops_sat (range_ops (Some (VInt lower)) (Some (VInt upper))) (Some (VInt c))
  = (lower <=? c) && (c <=? upper).
Proof.
  unfold ops_sat. rewrite range_ops_gte, range_ops_lte, range_ops_regex.
  cbn [from_option gte_sat lte_sat compare_num andb].
  rewrite (Z.leb_compare c upper), (Z.leb_compare lower c), (Z.compare_antisym c lower).
  by destruct (c ?= lower), (c ?= upper).
Qed.

Lemma odds_range_inclusive (lower upper o : spec_float) :
  ops_sat (range_ops (Some (VFloat lower)) (Some (VFloat upper))) (Some (VFloat o))
  = Float64.ge o lower && Float64.le o upper.
Proof.
  unfold ops_sat. rewrite range_ops_gte, range_ops_lte, range_ops_regex.
  cbn [from_option gte_sat lte_sat compare_num andb].
  unfold Float64.ge, Float64.le, SFleb. f_equal.
  destruct o as [so | so | | so mo eo], lower as [sl | sl | | sl ml el];
    try reflexivity; try (by destruct so); try (by destruct sl);
    try (by destruct so, sl).
  cbn [SFcompare]. destruct so, sl; try reflexivity.
  - rewrite (Z.compare_antisym eo el).
    destruct (eo ?= el); cbn [CompOpp]; try reflexivity.
    change (Pos.compare_cont Eq mo ml) with (mo ?= ml)%positive.
    change (Pos.compare_cont Eq ml mo) with (ml ?= mo)%positive.
    rewrite (Pos.compare_antisym mo ml). by destruct (mo ?= ml)%positive.
  - rewrite (Z.compare_antisym eo el).
    destruct (eo ?= el); cbn [CompOpp]; try reflexivity.
    change (Pos.compare_cont Eq mo ml) with (mo ?= ml)%positive.
    change (Pos.compare_cont Eq ml mo) with (ml ?= mo)%positive.
    rewrite (Pos.compare_antisym mo ml). by destruct (mo ?= ml)%positive.
Qed.

(** C5: [max_conf=0] is supplied and yet the filter carries no
    confidence condition: the request returns both demo predictions,
    whose confidences are 60 and 65, where an inclusive upper bound of
    0 admits neither. *)
Theorem zero_upper_bound_is_dropped :
  list_predictions_filt None None None None None (Some 0) = ∅
  ∧ (λ d : gmap string value, d !! "confidence")
      <$> returned (list_predictions (Some demo_store) None None None None None (Some 0) 20)
    = [Some (VInt 60); Some (VInt 65)]
  ∧ ops_sat (range_ops None (Some (VInt 0))) (Some (VInt 60)) = false
  ∧ ops_sat (range_ops None (Some (VInt 0))) (Some (VInt 65)) = false.
Proof. repeat split; by vm_compute. Qed.

(** ** What a listing of predictions returns *)

Lemma league_key (league : string) (date : option string)
    (min_odds max_odds : option spec_float) (min_conf max_conf : option Z) :
  league ≠ "" →
  list_predictions_filt (Some league) date min_odds max_odds min_conf max_conf
    !! "league" = Some (CEq league).
Proof.
  intros Hleague. unfold list_predictions_filt.
  destruct (truthy_int min_conf || truthy_int max_conf),
    (truthy_float min_odds || truthy_float max_odds);
    rewrite ?add_range_lookup_ne by done;
    destruct league as [| ? ?]; try done;
    destruct date as [[| ? ?] |]; cbn [truthy_str]; by simplify_map_eq.
Qed.

(** Every listed prediction is a stored prediction with its [_id]
    converted that satisfies each condition of the filter. *)
Lemma listed_prediction_satisfies (store : gmap string (list (gmap string value)))
    (league date : option string) (min_odds max_odds : option spec_float)
    (min_conf max_conf : option Z) (limit : Z) (r : gmap string value) :
  r ∈ returned (list_predictions (Some store) league date min_odds max_odds
                  min_conf max_conf limit) →
  ∃ d, d ∈ collection store "prediction" ∧ r = convert_id d
       ∧ ∀ k c,
           list_predictions_filt league date min_odds max_odds min_conf max_conf !! k
           = Some c →
           cond_sat c (d !! k) = true.
Proof.
  unfold list_predictions.
  destruct (get_documents _ _ _ _) as [docs | e] eqn:Hget; simpl;
    [| by intros ?%elem_of_nil].
  intros (d & -> & Hd)%list_elem_of_fmap.
  destruct (get_documents_elem _ _ _ _ _ _ Hget Hd) as [Hin Hmatch].
  exists d. split; [done | split; [done |]]. by apply doc_matches_conjunction.
Qed.

(** X1: with a non-empty league, every listed prediction has exactly
    that league. *)
Theorem listed_predictions_have_the_league
    (store : gmap string (list (gmap string value))) (league : string)
    (date : option string) (min_odds max_odds : option spec_float)
    (min_conf max_conf : option Z) (limit : Z) (r : gmap string value) :
  league ≠ "" →
  r ∈ returned (list_predictions (Some store) (Some league) date min_odds max_odds
                  min_conf max_conf limit) →
  r !! "league" = Some (VStr league).
Proof.
  intros Hleague (d & _ & -> & Hsat)%listed_prediction_satisfies.
  specialize (Hsat _ _ (league_key league date min_odds max_odds min_conf max_conf Hleague)).
  rewrite convert_id_lookup_other by done.
  simpl in Hsat. unfold eq_sat in Hsat.
  destruct (d !! "league") as [[| | | | s | |] |]; try done.
  by apply String.eqb_eq in Hsat as ->.
Qed.

Lemma ops_sat_bounds (ops : gmap string value) (fv : option value) :
  ops_sat ops fv = true →
  (∀ lo, ops !! "$gte" = Some lo → gte_sat fv lo = true)
  ∧ (∀ hi, ops !! "$lte" = Some hi → lte_sat fv hi = true)
  ∧ (∀ pat, ops !! "$regex" = Some pat → regex_sat fv pat = true).
Proof.
  unfold ops_sat. intros [[Hre Hge]%andb_true_iff Hle]%andb_true_iff.
  repeat split; intros x Hx; rewrite Hx in *; done.
Qed.

Lemma gte_sat_int (c lo : Z) : gte_sat (Some (VInt c)) (VInt lo) = true ↔ lo ≤ c.
Proof.
  cbn [gte_sat compare_num]. rewrite Z.le_lteq, (Z.compare_antisym lo c).
  destruct (Z.compare_spec lo c); cbn [CompOpp]; split; intros; try done; lia.
Qed.

Lemma lte_sat_int (c hi : Z) : lte_sat (Some (VInt c)) (VInt hi) = true ↔ c ≤ hi.
Proof.
  cbn [lte_sat compare_num].
  destruct (Z.compare_spec c hi); split; intros; try done; lia.
Qed.

(** X2: when one of the confidence bounds is neither absent nor zero,
    every listed prediction has a numeric confidence that is at least
    the lower bound given and at most the upper bound given; for an
    integer confidence [c] this is [min_conf <= c <= max_conf]. *)
Theorem listed_predictions_within_confidence
    (store : gmap string (list (gmap string value))) (league date : option string)
    (min_odds max_odds : option spec_float) (min_conf max_conf : option Z)
    (limit : Z) (r : gmap string value) :
  truthy_int min_conf || truthy_int max_conf = true →
  r ∈ returned (list_predictions (Some store) league date min_odds max_odds
                  min_conf max_conf limit) →
  (∃ v, r !! "confidence" = Some v ∧ is_number v = true)
  ∧ (∀ lo, min_conf = Some lo → gte_sat (r !! "confidence") (VInt lo) = true)
  ∧ (∀ hi, max_conf = Some hi → lte_sat (r !! "confidence") (VInt hi) = true)
  ∧ (∀ c, r !! "confidence" = Some (VInt c) →
          (∀ lo, min_conf = Some lo → lo ≤ c) ∧ (∀ hi, max_conf = Some hi → c ≤ hi)).
Proof.
  intros Htruthy (d & _ & -> & Hsat)%listed_prediction_satisfies.
  pose proof (confidence_key_iff_truthy league date min_odds max_odds min_conf max_conf)
    as Hkey.
  rewrite Htruthy in Hkey. specialize (Hsat _ _ Hkey). cbn [cond_sat] in Hsat.
  apply ops_sat_bounds in Hsat as (Hge & Hle & _).
  rewrite range_ops_gte in Hge. rewrite range_ops_lte in Hle.
  rewrite convert_id_lookup_other by done.
  assert (Hlo : ∀ lo, min_conf = Some lo → gte_sat (d !! "confidence") (VInt lo) = true)
    by (intros lo ->; by apply Hge).
  assert (Hhi : ∀ hi, max_conf = Some hi → lte_sat (d !! "confidence") (VInt hi) = true)
    by (intros hi ->; by apply Hle).
  split; [| split; [exact Hlo | split; [exact Hhi |]]].
  - destruct min_conf as [lo |], max_conf as [hi |]; try done.
    + specialize (Hlo lo eq_refl).
      destruct (d !! "confidence") as [[| | | | | |] |]; try done; by eexists.
    + specialize (Hlo lo eq_refl).
      destruct (d !! "confidence") as [[| | | | | |] |]; try done; by eexists.
    + specialize (Hhi hi eq_refl).
      destruct (d !! "confidence") as [[| | | | | |] |]; try done; by eexists.
  - intros c Hc. rewrite Hc in Hlo, Hhi. split.
    + intros lo Hmin. by apply gte_sat_int, Hlo.
    + intros hi Hmax. by apply lte_sat_int, Hhi.
Qed.

Lemma SFcompare_antisym (a b : spec_float) :
  SFcompare b a = CompOpp <$> SFcompare a b.
Proof.
  destruct a as [sa | sa | | sa ma ea], b as [sb | sb | | sb mb eb];
    try reflexivity; try (by destruct sa); try (by destruct sb);
    try (by destruct sa, sb).
  cbn [SFcompare fmap option_fmap option_map].
  rewrite (Z.compare_antisym ea eb).
  change (Pos.compare_cont Eq mb ma) with (mb ?= ma)%positive.
  change (Pos.compare_cont Eq ma mb) with (ma ?= mb)%positive.
  rewrite (Pos.compare_antisym ma mb).
  destruct sa, sb; try reflexivity;
    destruct (ea ?= eb); cbn [CompOpp]; try reflexivity;
    by destruct (ma ?= mb)%positive.
Qed.

Lemma gte_sat_float (o lo : spec_float) :
  gte_sat (Some (VFloat o)) (VFloat lo) = Float64.ge o lo.
Proof.
  cbn [gte_sat compare_num]. unfold Float64.ge, SFleb.
  rewrite (SFcompare_antisym o lo).
  by destruct (SFcompare o lo) as [[| |] |].
Qed.

Lemma lte_sat_float (o hi : spec_float) :
  lte_sat (Some (VFloat o)) (VFloat hi) = Float64.le o hi.
Proof. reflexivity. Qed.

(** X3: when one of the odds bounds is neither absent nor a zero, every
    listed prediction has numeric odds within the bounds given; for
    float odds [o] this is [min_odds <= o <= max_odds] in the order of
    the floats. *)
Theorem listed_predictions_within_odds
    (store : gmap string (list (gmap string value))) (league date : option string)
    (min_odds max_odds : option spec_float) (min_conf max_conf : option Z)
    (limit : Z) (r : gmap string value) :
  truthy_float min_odds || truthy_float max_odds = true →
  r ∈ returned (list_predictions (Some store) league date min_odds max_odds
                  min_conf max_conf limit) →
  (∃ v, r !! "odds" = Some v ∧ is_number v = true)
  ∧ (∀ lo, min_odds = Some lo → gte_sat (r !! "odds") (VFloat lo) = true)
  ∧ (∀ hi, max_odds = Some hi → lte_sat (r !! "odds") (VFloat hi) = true)
  ∧ (∀ o, r !! "odds" = Some (VFloat o) →
          (∀ lo, min_odds = Some lo → Float64.ge o lo = true)
          ∧ (∀ hi, max_odds = Some hi → Float64.le o hi = true)).
Proof.
  intros Htruthy (d & _ & -> & Hsat)%listed_prediction_satisfies.
  pose proof (odds_key_iff_truthy league date min_odds max_odds min_conf max_conf) as Hkey.
  rewrite Htruthy in Hkey. specialize (Hsat _ _ Hkey). cbn [cond_sat] in Hsat.
  apply ops_sat_bounds in Hsat as (Hge & Hle & _).
  rewrite range_ops_gte in Hge. rewrite range_ops_lte in Hle.
  rewrite convert_id_lookup_other by done.
  assert (Hlo : ∀ lo, min_odds = Some lo → gte_sat (d !! "odds") (VFloat lo) = true)
    by (intros lo ->; by apply Hge).
  assert (Hhi : ∀ hi, max_odds = Some hi → lte_sat (d !! "odds") (VFloat hi) = true)
    by (intros hi ->; by apply Hle).
  split; [| split; [exact Hlo | split; [exact Hhi |]]].
  - destruct min_odds as [lo |], max_odds as [hi |]; try done.
    + specialize (Hlo lo eq_refl).
      destruct (d !! "odds") as [[| | | | | |] |]; try done; by eexists.
    + specialize (Hlo lo eq_refl).
      destruct (d !! "odds") as [[| | | | | |] |]; try done; by eexists.
    + specialize (Hhi hi eq_refl).
      destruct (d !! "odds") as [[| | | | | |] |]; try done; by eexists.
  - intros o Ho. rewrite Ho in Hlo, Hhi. split.
    + intros lo Hmin. rewrite <- gte_sat_float. by apply Hlo.
    + intros hi Hmax. rewrite <- lte_sat_float. by apply Hhi.
Qed.

(** X4: with a non-empty date that has no metacharacter, every listed
    prediction has a kickoff string that starts with the date. *)
Theorem listed_predictions_start_with_plain_date
    (store : gmap string (list (gmap string value))) (league : option string)
    (date : string) (min_odds max_odds : option spec_float)
    (min_conf max_conf : option Z) (limit : Z) (r : gmap string value) :
  date ≠ "" →
  Regex.plain date = true →
  r ∈ returned (list_predictions (Some store) league (Some date) min_odds max_odds
                  min_conf max_conf limit) →
  ∃ kickoff, r !! "kickoff_iso" = Some (VStr kickoff) ∧ String.prefix date kickoff = true.
Proof.
  intros Hdate Hplain (d & _ & -> & Hsat)%listed_prediction_satisfies.
  specialize (Hsat _ _ (date_key league date min_odds max_odds min_conf max_conf Hdate)).
  rewrite convert_id_lookup_other by done.
  destruct (d !! "kickoff_iso") as [v |] eqn:Hk.
  - destruct v as [| | | | kickoff | |];
      try (cbn [cond_sat] in Hsat; unfold ops_sat in Hsat;
           rewrite lookup_singleton_eq in Hsat; by cbn in Hsat).
    exists kickoff. split; [done |].
    rewrite <- Hk in Hsat. by rewrite (plain_date_selects_prefix _ _ _ Hplain Hk) in Hsat.
  - cbn [cond_sat] in Hsat. unfold ops_sat in Hsat.
    rewrite lookup_singleton_eq in Hsat. by cbn in Hsat.
Qed.

Lemma filt_lookup_other (league date : option string)
    (min_odds max_odds : option spec_float) (min_conf max_conf : option Z) (k : string) :
  k ≠ "league" → k ≠ "kickoff_iso" → k ≠ "confidence" → k ≠ "odds" →
  list_predictions_filt league date min_odds max_odds min_conf max_conf !! k = None.
Proof.
  intros Hl Hd Hc Ho. unfold list_predictions_filt.
  destruct (truthy_int min_conf || truthy_int max_conf),
    (truthy_float min_odds || truthy_float max_odds);
    rewrite ?add_range_lookup_ne by done;
    destruct league as [[| ? ?] |], date as [[| ? ?] |]; cbn [truthy_str];
    by simplify_map_eq.
Qed.

Lemma filter_all {A : Type} (P : A → Prop) `{!∀ x, Decision (P x)} (l : list A) :
  (∀ x, x ∈ l → P x) → filter P l = l.
Proof.
  induction l as [| x l IH]; intros Hall; [done |].
  rewrite filter_cons_True by (apply Hall; left).
  f_equal. apply IH. intros y Hy. apply Hall. by right.
Qed.

(** X5: the filter of a listing has no key besides league, kickoff_iso,
    confidence and odds; it is empty exactly when the league and the
    date are absent or empty and no bound is truthy, and the listing
    then returns the stored predictions unfiltered, up to the limit. *)
Theorem filter_empty_iff_nothing_truthy
    (store : gmap string (list (gmap string value))) (league date : option string)
    (min_odds max_odds : option spec_float) (min_conf max_conf : option Z) (limit : Z) :
  let filt := list_predictions_filt league date min_odds max_odds min_conf max_conf in
  let falsy := truthy_str league = false ∧ truthy_str date = false
               ∧ truthy_int min_conf || truthy_int max_conf = false
               ∧ truthy_float min_odds || truthy_float max_odds = false in
  (∀ k, is_Some (filt !! k) → k ∈ ["league"; "kickoff_iso"; "confidence"; "odds"])
  ∧ (filt = ∅ ↔ falsy)
  ∧ (falsy →
     list_predictions (Some store) league date min_odds max_odds min_conf max_conf limit
     = Ok (Items (convert_id <$> truncate (Some limit) (collection store "prediction")))).
Proof.
  intros filt falsy.
  assert (Hempty : falsy → filt = ∅).
  { intros (Hl & Hd & Hc & Ho). unfold filt, list_predictions_filt.
    rewrite Hc, Ho. by destruct league as [[| ? ?] |], date as [[| ? ?] |]. }
  split; [| split; [split; [| exact Hempty] |]].
  - intros k Hk. rewrite !elem_of_cons.
    destruct (decide (k = "league")); [by left |].
    destruct (decide (k = "kickoff_iso")); [by right; left |].
    destruct (decide (k = "confidence")); [by right; right; left |].
    destruct (decide (k = "odds")); [by right; right; right; left |].
    unfold filt in Hk. rewrite filt_lookup_other in Hk by done.
    by destruct Hk.
  - intros Hfilt. unfold falsy. repeat split.
    + destruct league as [[| a l] |]; try done.
      pose proof (league_key (String a l) date min_odds max_odds min_conf max_conf) as Hkey.
      fold filt in Hkey. rewrite Hfilt, lookup_empty in Hkey. by discriminate Hkey.
    + destruct date as [[| a d] |]; try done.
      pose proof (date_key league (String a d) min_odds max_odds min_conf max_conf) as Hkey.
      fold filt in Hkey. rewrite Hfilt, lookup_empty in Hkey. by discriminate Hkey.
    + pose proof (confidence_key_iff_truthy league date min_odds max_odds min_conf max_conf)
        as Hkey.
      fold filt in Hkey. rewrite Hfilt, lookup_empty in Hkey.
      by destruct (truthy_int min_conf || truthy_int max_conf).
    + pose proof (odds_key_iff_truthy league date min_odds max_odds min_conf max_conf)
        as Hkey.
      fold filt in Hkey. rewrite Hfilt, lookup_empty in Hkey.
      by destruct (truthy_float min_odds || truthy_float max_odds).
  - intros Hfalsy. unfold list_predictions. fold filt. rewrite (Hempty Hfalsy).
    unfold get_documents. cbn [bind].
    rewrite filter_all; [done |]. intros d _. by rewrite doc_matches_empty.
Qed.

(** ** Lookups by key *)

Lemma filter_first {A : Type} (P : A → Prop) `{!∀ x, Decision (P x)} (l : list A) (x : A) :
  x ∈ l → P x → ∃ y rest, filter P l = y :: rest ∧ P y ∧ y ∈ l.
Proof.
  induction l as [| z l IH]; intros Hin HP; [by apply elem_of_nil in Hin |].
  destruct (decide (P z)) as [Hz | Hz].
  - exists z, (filter P l). rewrite filter_cons_True by done. split; [done | split; [done | left]].
  - apply elem_of_cons in Hin as [-> | Hin]; [done |].
    destruct (IH Hin HP) as (y & rest & Heq & Hy & Hyin).
    exists y, rest. rewrite filter_cons_False by done. split; [done | split; [done | by right]].
Qed.

Lemma lookup_by_key_found (store : gmap string (list (gmap string value)))
    (name key wanted : string) :
  key ≠ "_id" →
  (∃ d, d ∈ collection store name ∧ d !! key = Some (VStr wanted)) →
  ∃ d, d ∈ collection store name ∧ d !! key = Some (VStr wanted)
       ∧ (docs ←! get_documents (Some store) name {[ key := CEq wanted ]} (Some 1);
          first_or_404 docs) = Ok (Document (convert_id d)).
Proof.
  intros Hkey (d & Hd & Hcarries).
  assert (Hmatch : ∀ x : gmap string value,
            doc_matches {[ key := CEq wanted ]} x = true ↔ x !! key = Some (VStr wanted)).
  { intros x. rewrite doc_matches_singleton. cbn [cond_sat]. unfold eq_sat.
    destruct (x !! key) as [[| | | | s | |] |]; try (split; intros; done).
    rewrite String.eqb_eq. split; [by intros -> | by intros [= ->]]. }
  destruct (filter_first (λ x, doc_matches {[ key := CEq wanted ]} x)
              (collection store name) d Hd) as (y & rest & Heq & Hy & Hyin).
  { apply Is_true_true. by apply Hmatch. }
  exists y. split; [done | split].
  - apply Hmatch. by apply Is_true_true.
  - unfold get_documents. cbn [bind].
    unfold truncate. by rewrite Heq.
Qed.

Lemma lookup_by_key_returned (store : gmap string (list (gmap string value)))
    (name key wanted : string) (r : gmap string value) :
  (docs ←! get_documents (Some store) name {[ key := CEq wanted ]} (Some 1);
   first_or_404 docs) = Ok (Document r) →
  ∃ d, d ∈ collection store name ∧ d !! key = Some (VStr wanted) ∧ r = convert_id d.
Proof.
  destruct (get_documents (Some store) name {[ key := CEq wanted ]} (Some 1))
    as [docs | e] eqn:Hget; cbn [bind]; [| done].
  destruct docs as [| d docs]; cbn [first_or_404]; [done |].
  intros [= <-].
  destruct (get_documents_elem _ _ _ _ _ d Hget) as [Hin Hmatch]; [left |].
  exists d. split; [done | split; [| done]].
  rewrite doc_matches_singleton in Hmatch. cbn [cond_sat] in Hmatch.
  unfold eq_sat in Hmatch.
  destruct (d !! key) as [[| | | | s | |] |]; try done.
  by apply String.eqb_eq in Hmatch as ->.
Qed.

(** X6: with the store available, a lookup by match id, blog slug or
    legal slug returns a document exactly when a stored document of
    the collection carries the requested key; the document it returns
    is such a stored document with its [_id] converted, and so carries
    the requested key. *)
Theorem lookup_finds_iff_stored (store : gmap string (list (gmap string value))) :
  (∀ match_id,
     ((∃ d, d ∈ collection store "prediction" ∧ d !! "match_id" = Some (VStr match_id))
      ↔ ∃ r, get_prediction (Some store) match_id = Ok (Document r))
     ∧ (∀ r, get_prediction (Some store) match_id = Ok (Document r) →
             r !! "match_id" = Some (VStr match_id)
             ∧ ∃ d, d ∈ collection store "prediction"
                    ∧ d !! "match_id" = Some (VStr match_id) ∧ r = convert_id d))
  ∧ (∀ slug,
       ((∃ d, d ∈ collection store "blog" ∧ d !! "slug" = Some (VStr slug))
        ↔ ∃ r, get_blog (Some store) slug = Ok (Document r))
       ∧ (∀ r, get_blog (Some store) slug = Ok (Document r) →
               r !! "slug" = Some (VStr slug)
               ∧ ∃ d, d ∈ collection store "blog"
                      ∧ d !! "slug" = Some (VStr slug) ∧ r = convert_id d))
  ∧ (∀ slug,
       ((∃ d, d ∈ collection store "legal" ∧ d !! "slug" = Some (VStr slug))
        ↔ ∃ r, get_legal (Some store) slug = Ok (Document r))
       ∧ (∀ r, get_legal (Some store) slug = Ok (Document r) →
               r !! "slug" = Some (VStr slug)
               ∧ ∃ d, d ∈ collection store "legal"
                      ∧ d !! "slug" = Some (VStr slug) ∧ r = convert_id d)).
Proof.
  assert (Hgen : ∀ name key wanted,
            key ≠ "_id" →
            let lookup := (docs ←! get_documents (Some store) name
                                     {[ key := CEq wanted ]} (Some 1);
                           first_or_404 docs) in
            ((∃ d, d ∈ collection store name ∧ d !! key = Some (VStr wanted))
             ↔ ∃ r, lookup = Ok (Document r))
            ∧ (∀ r, lookup = Ok (Document r) →
                    r !! key = Some (VStr wanted)
                    ∧ ∃ d, d ∈ collection store name
                           ∧ d !! key = Some (VStr wanted) ∧ r = convert_id d)).
  { intros name key wanted Hkey lookup. split; [split |].
    - intros Hex. destruct (lookup_by_key_found store name key wanted Hkey Hex)
        as (d & _ & _ & Hres).
      by exists (convert_id d).
    - intros (r & Hres).
      destruct (lookup_by_key_returned store name key wanted r Hres) as (d & Hd & Hc & _).
      by exists d.
    - intros r Hres.
      destruct (lookup_by_key_returned store name key wanted r Hres) as (d & Hd & Hc & ->).
      split; [by rewrite convert_id_lookup_other | by exists d]. }
  split; [| split]; intros wanted; by apply Hgen.
Qed.

(** X8: a listing never raises 404, and raises an HTTP error only as
    the 500 of the unavailable store; a lookup against an available
    store either returns a document or raises the 404 "Not found". *)
Theorem listing_never_404_lookup_document_or_404 (db : option database) (req : request) :
  (is_listing req = true →
   ∀ code detail, handle db req = Raise (HTTPException code detail) →
                  code = 500 ∧ db = None)
  ∧ (is_listing req = false →
     ∀ store, db = Some store →
     (∃ r, handle db req = Ok (Document r)) ∨ handle db req = Raise not_found).
Proof.
  split.
  - intros Hlisting code detail.
    destruct req; try discriminate Hlisting; cbn [handle];
      unfold list_predictions, list_blogs, get_plans, admin_testimonials, get_documents;
      (destruct db as [store |]; [| by intros [= <- _]]);
      done.
  - intros Hlookup store ->.
    assert (Hgen : ∀ name key wanted,
              (∃ r, (docs ←! get_documents (Some store) name {[ key := CEq wanted ]} (Some 1);
                     first_or_404 docs) = Ok (Document r))
              ∨ (docs ←! get_documents (Some store) name {[ key := CEq wanted ]} (Some 1);
                 first_or_404 docs) = Raise not_found).
    { intros name key wanted. unfold get_documents. cbn [bind].
      destruct (truncate _ _) as [| d rest]; [by right | left; by eexists]. }
    destruct req; try discriminate Hlookup; apply Hgen.
Qed.

(** X9: converting the identifier twice is converting it once, and the
    conversion keeps every key of the document and adds at most [_id]. *)
Theorem convert_id_idempotent (d : gmap string value) :
  convert_id (convert_id d) = convert_id d
  ∧ dom (convert_id d) = {[ "_id" ]} ∪ dom d.
Proof.
  split.
  - unfold convert_id at 1. unfold dict_get. rewrite convert_id_lookup_id.
    cbn [default py_str]. unfold convert_id. apply insert_insert_eq.
  - unfold convert_id. apply dom_insert_L.
Qed.

(** ** Validation, beyond the two numeric bounds *)

Lemma literal_ok_elem_of (allowed : list string) (s : string) :
  Schemas.literal_ok allowed s = true ↔ s ∈ allowed.
Proof.
  unfold Schemas.literal_ok. rewrite existsb_exists. split.
  - intros (x & Hin & ->%String.eqb_eq). by apply list_elem_of_In.
  - intros Hin. exists s. split; [by apply list_elem_of_In | apply String.eqb_refl].
Qed.

Lemma no_error_iff_all_pass (checks : list (string * bool)) :
  fst <$> filter (λ fc, negb (snd fc)) checks = [] ↔ Forall (λ fc, snd fc = true) checks.
Proof.
  induction checks as [| [name b] checks IH].
  - split; [constructor | done].
  - rewrite Forall_cons. destruct b.
    + rewrite filter_cons_False by (simpl; intros []). rewrite IH. cbn [snd].
      split; [by split | by intros [_ ?]].
    + rewrite filter_cons_True by done. cbn [snd]. split; [done | by intros [? _]].
Qed.

(** X10: a submitted prediction is accepted, unchanged, exactly when
    its pick, risk and status are in their closed sets, its odds exceed
    1.0, its confidence is within 1 and 100 and each expected-goals
    figure is absent or passes [ge=0]; otherwise it is rejected. *)
Theorem prediction_accepted_iff (p : Schemas.Prediction) :
  (Schemas.validate p = Some p
   ↔ Schemas.pick p ∈ Schemas.pick_literals
     ∧ Float64.gt (Schemas.odds p) Float64.one = true
     ∧ 1 ≤ Schemas.confidence p ≤ 100
     ∧ Schemas.risk p ∈ Schemas.risk_literals
     ∧ Schemas.xg_ok (Schemas.xg_home p) = true
     ∧ Schemas.xg_ok (Schemas.xg_away p) = true
     ∧ Schemas.status p ∈ Schemas.status_literals)
  ∧ (Schemas.validate p = Some p ∨ Schemas.validate p = None).
Proof.
  rewrite <- !literal_ok_elem_of.
  assert (Hconf : 1 ≤ Schemas.confidence p ≤ 100
                  ↔ Schemas.confidence_ok (Schemas.confidence p) = true).
  { unfold Schemas.confidence_ok. rewrite andb_true_iff, !Z.leb_le. reflexivity. }
  rewrite Hconf. clear Hconf.
  assert (Hvalid : Schemas.validate p = Some p ↔ Schemas.validation_errors p = []).
  { unfold Schemas.validate. by destruct (Schemas.validation_errors p). }
  split.
  - rewrite Hvalid. unfold Schemas.validation_errors.
    rewrite no_error_iff_all_pass. unfold Schemas.field_checks, Schemas.odds_ok.
    rewrite !Forall_cons, Forall_nil. cbn [snd]. tauto.
  - unfold Schemas.validate. destruct (Schemas.validation_errors p); by eauto.
Qed.

(** X11: an expected-goals figure passes [ge=0] exactly when it is
    absent or a zero of either sign, a positive number or the positive
    infinity: a NaN and every negative number are refused. Odds pass
    [gt=1.0] for the positive infinity and fail for a NaN. *)
Theorem float_bounds_at_the_edges (f : spec_float) :
  (Schemas.xg_ok (Some f) = true ↔ Schemas.non_negative f)
  ∧ Schemas.xg_ok None = true
  ∧ Schemas.odds_ok (S754_infinity false) = true
  ∧ Schemas.odds_ok S754_nan = false.
Proof.
  split; [| by repeat split].
  unfold Schemas.xg_ok, Float64.ge, Float64.zero, SFleb.
  destruct f as [s | s | | s m e]; cbn; try done.
  - by destruct s.
  - by destruct s.
Qed.

(** ** The demo seed *)

Lemma try_create_count (name : string) (acc : store_state * Z) (m : model) :
  (try_create name acc m).2
  = acc.2 + (if (create_document name m acc.1).2 then 1 else 0).
Proof.
  unfold try_create. destruct (create_document name m acc.1) as [st' ok].
  destruct ok; simpl; lia.
Qed.

(** A pass over [ms] adds between nothing and its length to [created],
    all of it when every call returns and nothing when every call
    raises. *)
Lemma create_each_count (name : string) (ms : list model) (acc : store_state * Z) :
  let created := (create_each name ms acc).2 in
  acc.2 ≤ created ≤ acc.2 + Z.of_nat (length ms)
  ∧ ((∀ n m s, (create_document n m s).2 = true) →
     created = acc.2 + Z.of_nat (length ms))
  ∧ ((∀ n m s, (create_document n m s).2 = false) → created = acc.2).
Proof.
  unfold create_each. revert acc.
  induction ms as [| m ms IH]; intros acc; cbn [foldl length].
  - repeat split; lia.
  - destruct (IH (try_create name acc m)) as (Hbounds & Hall & Hnone).
    rewrite try_create_count in Hbounds, Hall, Hnone.
    repeat split.
    + destruct (create_document name m acc.1).2; lia.
    + destruct (create_document name m acc.1).2; lia.
    + intros Hok. rewrite (Hall Hok), Hok. lia.
    + intros Hraise. rewrite (Hnone Hraise), Hraise. lia.
Qed.

Lemma seed_models_are_valid :
  mapM Schemas.validate_plan seed_plans = Some seed_plans
  ∧ mapM Schemas.validate seed_predictions = Some seed_predictions
  ∧ mapM Schemas.validate_legal seed_legal = Some seed_legal.
Proof. repeat split; by vm_compute. Qed.

(** X12: the demo seed always answers: none of the models it
    constructs fails validation, whatever the clock reads, and a write
    that raises is skipped. Its [created] is between 0 and 26; it is 26
    when every write returns and 0 when every write raises. *)
Theorem seed_counts_the_writes_that_return (st : store_state) :
  ∃ st' created,
    seed_demo_content st = Some (st', created)
    ∧ 0 ≤ created ≤ 26
    ∧ ((∀ n m s, (create_document n m s).2 = true) → created = 26)
    ∧ ((∀ n m s, (create_document n m s).2 = false) → created = 0).
Proof.
  unfold seed_demo_content.
  destruct seed_models_are_valid as (-> & -> & ->). cbn [mbind option_bind].
  set (a1 := create_each "plan" (MPlan <$> seed_plans) (st, 0)).
  set (a2 := create_each "blog" (MBlog <$> seed_blogs) a1).
  set (a3 := create_each "prediction" (MPrediction <$> seed_predictions) a2).
  set (a4 := create_each "testimonial" (MTestimonial <$> seed_testimonials) a3).
  set (a5 := create_each "legal" (MLegal <$> seed_legal) a4).
  destruct (create_each_count "plan" (MPlan <$> seed_plans) (st, 0)) as (B1 & A1 & N1).
  destruct (create_each_count "blog" (MBlog <$> seed_blogs) a1) as (B2 & A2 & N2).
  destruct (create_each_count "prediction" (MPrediction <$> seed_predictions) a2)
    as (B3 & A3 & N3).
  destruct (create_each_count "testimonial" (MTestimonial <$> seed_testimonials) a3)
    as (B4 & A4 & N4).
  destruct (create_each_count "legal" (MLegal <$> seed_legal) a4) as (B5 & A5 & N5).
  fold a1 in B1, A1, N1. fold a2 in B2, A2, N2. fold a3 in B3, A3, N3.
  fold a4 in B4, A4, N4. fold a5 in B5, A5, N5.
  rewrite !length_fmap in *. unfold seed_blogs, seed_predictions in *.
  rewrite !length_fmap, !length_seq in *.
  cbn [length seed_plans seed_testimonials seed_legal fst snd] in *.
  exists a5.1, a5.2. split; [by destruct a5 | split; [lia | split]].
  - intros Hok. rewrite (A5 Hok), (A4 Hok), (A3 Hok), (A2 Hok), (A1 Hok). lia.
  - intros Hraise.
    rewrite (N5 Hraise), (N4 Hraise), (N3 Hraise), (N2 Hraise), (N1 Hraise). lia.
Qed.

(** The twelve demo predictions carry the pairwise distinct match
    ids M001 to M012, and the six demo blog posts the pairwise distinct
    slugs intro-1 to intro-6. *)
Lemma seed_keys_are_distinct :
  Schemas.match_id <$> seed_predictions
  = ["M001"; "M002"; "M003"; "M004"; "M005"; "M006";
     "M007"; "M008"; "M009"; "M010"; "M011"; "M012"]
  ∧ NoDup (Schemas.match_id <$> seed_predictions)
  ∧ Schemas.blog_slug <$> seed_blogs
    = ["intro-1"; "intro-2"; "intro-3"; "intro-4"; "intro-5"; "intro-6"]
  ∧ NoDup (Schemas.blog_slug <$> seed_blogs).
Proof.
  assert (Hids : Schemas.match_id <$> seed_predictions
                 = ["M001"; "M002"; "M003"; "M004"; "M005"; "M006";
                    "M007"; "M008"; "M009"; "M010"; "M011"; "M012"]) by by vm_compute.
  assert (Hslugs : Schemas.blog_slug <$> seed_blogs
                   = ["intro-1"; "intro-2"; "intro-3"; "intro-4"; "intro-5"; "intro-6"])
    by by vm_compute.
  split; [exact Hids | split; [| split; [exact Hslugs |]]].
  - rewrite Hids. apply (bool_decide_unpack _). by vm_compute.
  - rewrite Hslugs. apply (bool_decide_unpack _). by vm_compute.
Qed.

(** X13: the static fallbacks are the seeded content: for every seeded
    legal page the lookup without a store returns the page made of its
    slug, title and content, and the fallback plans carry the code, name and currency of
    the seeded plans and prices numerically equal to theirs. *)
Theorem fallbacks_agree_with_the_seed :
  Forall (λ l, get_legal None (Schemas.legal_slug l)
               = Ok (Document (list_to_map
                                 [("slug", VStr (Schemas.legal_slug l));
                                  ("title", VStr (Schemas.legal_title l));
                                  ("content", VStr (Schemas.legal_content l))])))
    seed_legal
  ∧ Forall2 (λ (d : gmap string value) (p : Schemas.Plan),
       d !! "code" = Some (VStr (Schemas.plan_code p))
       ∧ d !! "name" = Some (VStr (Schemas.plan_name p))
       ∧ d !! "currency" = Some (VStr (Schemas.plan_currency p))
       ∧ (∃ v, d !! "monthly_price" = Some v
               ∧ compare_num v (VFloat (Schemas.monthly_price p)) = Some Eq)
       ∧ (∃ v, d !! "yearly_price" = Some v
               ∧ compare_num v (VFloat (Schemas.yearly_price p)) = Some Eq))
      (returned (get_plans None)) seed_plans.
Proof.
  split.
  - repeat constructor.
  - cbn [get_plans returned]. unfold fallback_plans, seed_plans.
    repeat (constructor;
            [split; [reflexivity | split; [reflexivity | split; [reflexivity |]]];
             split; eexists; (split; [reflexivity | by vm_compute]) |]).
    constructor.
Qed.

(** ** The health probe *)





(** ** An inverted confidence range *)

Lemma inverted_int_bounds (fv : option value) (lo hi : Z) :
  hi < lo → gte_sat fv (VInt lo) && lte_sat fv (VInt hi) = false.
Proof.
  intros Hinv. apply not_true_is_false. intros [Hge Hle]%andb_true_iff.
  destruct fv as [[| | c | f | | |] |]; try discriminate Hge.
  - apply gte_sat_int in Hge. apply lte_sat_int in Hle. lia.
  - cbn [gte_sat lte_sat compare_num] in Hge, Hle.
    destruct f as [s | s | | s m e]; cbn [Float64.compare_Z fmap option_fmap option_map]
      in Hge, Hle; try discriminate Hge.
    + destruct (Z.compare_spec lo 0), (Z.compare_spec hi 0);
        cbn [CompOpp] in Hge, Hle; try discriminate; lia.
    + destruct s; cbn [CompOpp] in Hge, Hle; discriminate.
    + set (v := if s then Z.neg m else Z.pos m) in *.
      destruct (0 <=? e) eqn:He.
      * apply Z.leb_le in He.
        destruct (Z.compare_spec lo (v * 2 ^ e)), (Z.compare_spec hi (v * 2 ^ e));
          cbn [CompOpp] in Hge, Hle; try discriminate; lia.
      * apply Z.leb_gt in He.
        assert (Hpos : 0 < 2 ^ (- e)) by (apply Z.pow_pos_nonneg; lia).
        destruct (Z.compare_spec (lo * 2 ^ (- e)) v),
          (Z.compare_spec (hi * 2 ^ (- e)) v);
          cbn [CompOpp] in Hge, Hle; try discriminate; nia.
Qed.

(** X7: with both confidence bounds given and the upper one below the
    lower one, the listing returns no document, whatever the store
    holds; with the store available it answers with an empty list of
    items, not with an error. *)
Theorem inverted_confidence_range_lists_nothing (db : option database)
    (league date : option string) (min_odds max_odds : option spec_float)
    (lo hi limit : Z) :
  hi < lo →
  returned (list_predictions db league date min_odds max_odds (Some lo) (Some hi) limit) = []
  ∧ (∀ store,
       list_predictions (Some store) league date min_odds max_odds (Some lo) (Some hi) limit
       = Ok (Items [])).
Proof.
  intros Hinv.
  assert (Hnone : ∀ d : gmap string value,
            doc_matches
              (list_predictions_filt league date min_odds max_odds (Some lo) (Some hi)) d
            = false).
  { intros d. apply not_true_is_false. intros Hmatch.
    pose proof (confidence_key_iff_truthy league date min_odds max_odds (Some lo) (Some hi))
      as Hkey.
    assert (Htruthy : truthy_int (Some lo) || truthy_int (Some hi) = true).
    { cbn [truthy_int]. destruct (Z.eqb_spec lo 0), (Z.eqb_spec hi 0); try done. lia. }
    rewrite Htruthy in Hkey.
    pose proof (proj1 (doc_matches_conjunction _ _) Hmatch _ _ Hkey) as Hsat.
    cbn [cond_sat fmap option_fmap option_map] in Hsat.
    apply ops_sat_bounds in Hsat as (Hge & Hle & _).
    rewrite range_ops_gte in Hge. rewrite range_ops_lte in Hle.
    pose proof (inverted_int_bounds (d !! "confidence") lo hi Hinv) as Hcontra.
    by rewrite (Hge _ eq_refl), (Hle _ eq_refl) in Hcontra. }
  assert (Havailable : ∀ store,
            list_predictions (Some store) league date min_odds max_odds (Some lo) (Some hi) limit
            = Ok (Items [])).
  { intros store. unfold list_predictions.
    rewrite get_documents_no_match; [done | by intros d _]. }
  split; [| exact Havailable].
  destruct db as [store |]; [| done]. by rewrite Havailable.
Qed.

End Router.

(** ** The theorems at concrete requests *)

#[local] Existing Instance fragment_only.

Lemma odds_must_exceed_one_witness :
  ("odds" ∈ Schemas.validation_errors (Schemas.sample Float64.one 60)
   ∧ Schemas.validate (Schemas.sample Float64.one 60) = None)
  ∧ "odds" ∉ Schemas.validation_errors
               (Schemas.sample Float64.one_and_a_ten_thousandth 60).
Proof.
  split.
  - apply (proj1 (odds_must_exceed_one (Schemas.sample Float64.one 60))).
    vm_compute. reflexivity.
  - apply (proj1 (proj2 (odds_must_exceed_one
                           (Schemas.sample Float64.one_and_a_ten_thousandth 60)))).
    + vm_compute. discriminate.
    + vm_compute. reflexivity.
Defined.

Lemma confidence_within_1_100_witness :
  "confidence" ∈ Schemas.validation_errors (Schemas.sample (Float64.of_ratio 16 10) 101)
  ∧ Schemas.validate (Schemas.sample (Float64.of_ratio 16 10) 0) = None.
Proof.
  split.
  - apply (proj1 (confidence_within_1_100 (Schemas.sample (Float64.of_ratio 16 10) 101))).
    right. vm_compute. reflexivity.
  - apply (proj1 (proj2 (confidence_within_1_100
                           (Schemas.sample (Float64.of_ratio 16 10) 0)))).
    left. vm_compute. reflexivity.
Defined.

Lemma unavailable_store_fallbacks_witness :
  get_legal str_placeholder None "cookies" = Raise (HTTPException 404 "Not found").
Proof.
  apply (proj1 (proj2 (proj2 (proj2 (proj2
           (unavailable_store_fallbacks str_placeholder)))))).
  rewrite !not_elem_of_cons. repeat split; try discriminate.
  apply not_elem_of_nil.
Defined.

Lemma demo_predictions : collection demo_store "prediction" = [demo_first; demo_second].
Proof. unfold collection, demo_store. rewrite lookup_singleton_eq. reflexivity. Qed.

(** Closes an equation between closed terms by evaluating both sides. *)
Ltac by_evaluation :=
  lazymatch goal with
  | |- ?a = ?b => exact (@eq_refl _ b <: a = b)
  end.

Lemma demo_other_collections (name : string) :
  name ≠ "prediction" → collection demo_store name = [].
Proof.
  intros Hne. unfold collection, demo_store. by rewrite lookup_singleton_ne.
Qed.

Lemma lookup_404_listing_empty_witness :
  get_prediction str_placeholder (Some demo_store) "M003"
  = Raise (HTTPException 404 "Not found")
  ∧ get_blog str_placeholder (Some demo_store) "intro-1"
    = Raise (HTTPException 404 "Not found")
  ∧ get_legal str_placeholder (Some demo_store) "terms"
    = Raise (HTTPException 404 "Not found")
  ∧ list_predictions str_placeholder (Some demo_store) (Some "Ligue 1") None
      None None None None 20 = Ok (Items [])
  ∧ list_blogs str_placeholder (Some demo_store) 6 = Ok (Items [])
  ∧ admin_testimonials str_placeholder (Some demo_store) 10 = Ok (Items [])
  ∧ get_plans str_placeholder (Some demo_store) = Ok (Items []).
Proof.
  pose proof (lookup_404_listing_empty str_placeholder demo_store)
    as (Hpred & Hblog & Hlegal & Hlist & Hblogs & Htesti & Hplans).
  split; [| split; [| split; [| split; [| split; [| split]]]]].
  - apply Hpred. intros d Hd. rewrite demo_predictions in Hd.
    apply elem_of_cons in Hd as [Hd | Hd]; [rewrite Hd; vm_compute; discriminate |].
    apply elem_of_cons in Hd as [Hd | Hd]; [rewrite Hd; vm_compute; discriminate |].
    by apply elem_of_nil in Hd.
  - apply Hblog. intros d Hd. rewrite demo_other_collections in Hd by discriminate.
    by apply elem_of_nil in Hd.
  - apply Hlegal. intros d Hd. rewrite demo_other_collections in Hd by discriminate.
    by apply elem_of_nil in Hd.
  - apply Hlist.
    intros d Hd. rewrite demo_predictions in Hd.
    apply elem_of_cons in Hd as [Hd | Hd]; [rewrite Hd; vm_compute; reflexivity |].
    apply elem_of_cons in Hd as [Hd | Hd]; [rewrite Hd; vm_compute; reflexivity |].
    by apply elem_of_nil in Hd.
  - apply Hblogs. apply demo_other_collections. discriminate.
  - apply Htesti. apply demo_other_collections. discriminate.
  - apply Hplans. apply demo_other_collections. discriminate.
Defined.

Lemma only_the_identifier_is_rewritten_witness :
  ∃ d : gmap string value,
    d ∈ collection demo_store "prediction"
    ∧ convert_id str_placeholder demo_first !! "_id"
      = Some (VStr (py_str str_placeholder (dict_get d "_id")))
    ∧ ∀ k, k ≠ "_id" → convert_id str_placeholder demo_first !! k = d !! k.
Proof.
  apply (only_the_identifier_is_rewritten str_placeholder demo_store (GetPrediction "M001")).
  replace (returned (handle str_placeholder (Some demo_store) (GetPrediction "M001")))
    with [convert_id str_placeholder demo_first] by by_evaluation.
  apply list_elem_of_here.
Defined.

Lemma identifier_is_always_a_string_witness :
  (∃ s, convert_id str_placeholder demo_second !! "_id" = Some (VStr s))
  ∧ ∃ d : gmap string value,
      d ∈ collection demo_store "prediction"
      ∧ convert_id str_placeholder demo_second = convert_id str_placeholder d
      ∧ (d !! "_id" = None →
         convert_id str_placeholder demo_second !! "_id" = Some (VStr "None")).
Proof.
  apply (proj1 (identifier_is_always_a_string str_placeholder demo_store
                  (GetPrediction "M002") _)).
  replace (returned (handle str_placeholder (Some demo_store) (GetPrediction "M002")))
    with [convert_id str_placeholder demo_second] by by_evaluation.
  apply list_elem_of_here.
Defined.


(** ** The further theorems at concrete requests *)

Lemma listed_predictions_have_the_league_witness :
  convert_id str_placeholder demo_first !! "league" = Some (VStr "Serie A").
Proof.
  apply (listed_predictions_have_the_league str_placeholder demo_store "Serie A"
           None None None None None 20).
  - discriminate.
  - replace (returned (list_predictions str_placeholder (Some demo_store) (Some "Serie A")
                         None None None None None 20))
      with [convert_id str_placeholder demo_first] by by_evaluation.
    apply list_elem_of_here.
Defined.

Lemma listed_predictions_within_confidence_witness :
  gte_sat (convert_id str_placeholder demo_first !! "confidence") (VInt 50) = true
  ∧ lte_sat (convert_id str_placeholder demo_first !! "confidence") (VInt 62) = true.
Proof.
  destruct (listed_predictions_within_confidence str_placeholder demo_store
              None None None None (Some 50) (Some 62) 20
              (convert_id str_placeholder demo_first)) as (_ & Hlo & Hhi & _).
  - reflexivity.
  - replace (returned (list_predictions str_placeholder (Some demo_store) None None
                         None None (Some 50) (Some 62) 20))
      with [convert_id str_placeholder demo_first] by by_evaluation.
    apply list_elem_of_here.
  - split; [by apply Hlo | by apply Hhi].
Defined.

Lemma listed_predictions_within_odds_witness :
  gte_sat (convert_id str_placeholder demo_second !! "odds")
    (VFloat (Float64.of_ratio 17 10)) = true.
Proof.
  destruct (listed_predictions_within_odds str_placeholder demo_store
              None None (Some (Float64.of_ratio 17 10)) None None None 20
              (convert_id str_placeholder demo_second)) as (_ & Hlo & _).
  - vm_compute. reflexivity.
  - replace (returned (list_predictions str_placeholder (Some demo_store) None None
                         (Some (Float64.of_ratio 17 10)) None None None 20))
      with [convert_id str_placeholder demo_second] by by_evaluation.
    apply list_elem_of_here.
  - by apply Hlo.
Defined.

Lemma listed_predictions_start_with_plain_date_witness :
  ∃ kickoff,
    convert_id str_placeholder demo_first !! "kickoff_iso" = Some (VStr kickoff)
    ∧ String.prefix "2024-03-05" kickoff = true.
Proof.
  apply (listed_predictions_start_with_plain_date str_placeholder demo_store None
           "2024-03-05" None None None None 20).
  - discriminate.
  - vm_compute. reflexivity.
  - replace (returned (list_predictions str_placeholder (Some demo_store) None
                         (Some "2024-03-05") None None None None 20))
      with [convert_id str_placeholder demo_first] by by_evaluation.
    apply list_elem_of_here.
Defined.

Lemma filter_empty_iff_nothing_truthy_witness :
  list_predictions str_placeholder (Some demo_store) None (Some "") None None (Some 0) None 20
  = Ok (Items (convert_id str_placeholder
                 <$> truncate (Some 20) (collection demo_store "prediction"))).
Proof.
  apply (proj2 (proj2 (filter_empty_iff_nothing_truthy str_placeholder demo_store
                         None (Some "") None None (Some 0) None 20))).
  repeat split; reflexivity.
Defined.

Lemma lookup_finds_iff_stored_witness :
  (∃ r, get_prediction str_placeholder (Some demo_store) "M001" = Ok (Document r))
  ∧ convert_id str_placeholder demo_first !! "match_id" = Some (VStr "M001").
Proof.
  destruct (proj1 (lookup_finds_iff_stored str_placeholder demo_store) "M001")
    as [Hiff Hreturned].
  split.
  - apply (proj1 Hiff). exists demo_first. split.
    + rewrite demo_predictions. apply list_elem_of_here.
    + vm_compute. reflexivity.
  - apply (Hreturned (convert_id str_placeholder demo_first)). by_evaluation.
Defined.

Lemma listing_never_404_lookup_document_or_404_witness :
  ((500 : Z) = 500 ∧ (None : option (gmap string (list (gmap string value)))) = None)
  ∧ ((∃ r, handle str_placeholder (Some demo_store) (GetPrediction "M003")
           = Ok (Document r))
     ∨ handle str_placeholder (Some demo_store) (GetPrediction "M003") = Raise not_found).
Proof.
  split.
  - apply (proj1 (listing_never_404_lookup_document_or_404 str_placeholder None
                    (ListBlogs 6)) eq_refl 500 "Database not available").
    reflexivity.
  - apply (proj2 (listing_never_404_lookup_document_or_404 str_placeholder
                    (Some demo_store) (GetPrediction "M003")) eq_refl demo_store).
    reflexivity.
Defined.

Lemma prediction_accepted_iff_witness :
  Schemas.validate (Schemas.sample (Float64.of_ratio 16 10) 60)
  = Some (Schemas.sample (Float64.of_ratio 16 10) 60).
Proof.
  apply (proj1 (prediction_accepted_iff (Schemas.sample (Float64.of_ratio 16 10) 60))).
  repeat split; try (vm_compute; first [reflexivity | discriminate]);
    apply (bool_decide_unpack _); vm_compute; exact I.
Defined.

Lemma float_bounds_at_the_edges_witness :
  Schemas.xg_ok (Some (S754_zero true)) = true.
Proof.
  apply (proj1 (float_bounds_at_the_edges (S754_zero true))). exact I.
Defined.

Lemma seed_counts_the_writes_that_return_witness :
  (∃ st' created,
     seed_demo_content (list (string * model)) keeping_create
       (λ _, "2024-03-05T18:00:00Z") [] = Some (st', created)
     ∧ created = 26)
  ∧ (∃ st' created,
       seed_demo_content (list (string * model)) raising_create
         (λ _, "2024-03-05T18:00:00Z") [] = Some (st', created)
       ∧ created = 0).
Proof.
  split.
  - destruct (seed_counts_the_writes_that_return (list (string * model)) keeping_create
                (λ _, "2024-03-05T18:00:00Z") []) as (st' & created & Hrun & _ & Hall & _).
    exists st', created. split; [exact Hrun |]. apply Hall. reflexivity.
  - destruct (seed_counts_the_writes_that_return (list (string * model)) raising_create
                (λ _, "2024-03-05T18:00:00Z") []) as (st' & created & Hrun & _ & _ & Hnone).
    exists st', created. split; [exact Hrun |]. apply Hnone. reflexivity.
Defined.


Lemma inverted_confidence_range_lists_nothing_witness :
  returned (list_predictions str_placeholder (Some demo_store) None None None None
              (Some 70) (Some 60) 20) = []
  ∧ list_predictions str_placeholder (Some demo_store) None None None None
      (Some 70) (Some 60) 20 = Ok (Items []).
Proof.
  destruct (inverted_confidence_range_lists_nothing str_placeholder (Some demo_store)
              None None None None 70 60 20) as [Hreturned Hempty].
  - reflexivity.
  - split; [exact Hreturned | apply Hempty].
Defined.
